(** * PRCycleTime.py: bounded sampling of pull-request metrics

    A shallow embedding of [src/RepoActivity.Octokit/PRCycleTime.py].

    The script runs five sampling loops of the same shape

<<
      for pr in prs:
          if count >= max_sample:
              break
          pr_obj = repo.get_pull(pr.number)
          ...
>>

    each followed by a summary.  The remote platform is modelled as data:
    the search result is a list of issues, [get_pull] is a total function
    from issue numbers to pull-request records (remote failures abort the
    script and are not modelled).  Standard output is a list of lines held
    in the loop state.

    Numbers: Python [int] is [Z].  Python [float] values (hours, medians,
    means) are modelled by the rationals [Q] they stand for; the rounding
    of binary64 arithmetic and of the [:.1f] display format is outside the
    model. *)

From Stdlib Require Import ZArith QArith Qfield Lia Lqa Bool String List.
From Stdlib Require Import DecimalString ListSet.
From Stdlib Require Import Sorting.Sorted Sorting.Permutation.
Import ListNotations.

Local Open Scope Z_scope.

(** ** Python values used by the script *)

(** An aware [datetime] (PyGithub returns UTC instants): microseconds
    since the epoch. *)
Definition datetime := Z.

(** [datetime.timedelta], normalised as CPython keeps it:
    [0 <= seconds < 86400] and [0 <= microseconds < 10**6]. *)
Record timedelta := mk_timedelta {
  days : Z;
  seconds : Z;
  microseconds : Z
}.

Definition us_per_second : Z := 1000000.
Definition us_per_hour : Z := 3600 * us_per_second.
Definition us_per_day : Z := 86400 * us_per_second.

(** [a - b] on datetimes. *)
Definition datetime_sub (a b : datetime) : timedelta :=
  let us := a - b in
  {| days := us / us_per_day;
     seconds := (us mod us_per_day) / us_per_second;
     microseconds := us mod us_per_second |}.

(** [timedelta.total_seconds()]:
    [((days * 86400 + seconds) * 10**6 + microseconds) / 10**6]. *)
Definition total_seconds (td : timedelta) : Q :=
  (inject_Z ((days td * 86400 + seconds td) * 10 ^ 6 + microseconds td)
   / inject_Z (10 ^ 6))%Q.

(** Exceptions the summaries can raise. *)
Inductive PyError :=
| ZeroDivisionError
| StatisticsError
| TypeError.

Inductive result (A : Type) :=
| Ok (a : A)
| Raise (e : PyError).
Arguments Ok {A} a.
Arguments Raise {A} e.

Definition bind {A B : Type} (r : result A) (k : A -> result B) : result B :=
  match r with
  | Ok a => k a
  | Raise e => Raise e
  end.

Notation "x <- r ;; k" := (bind r (fun x => k))
  (at level 61, r at next level, right associativity).

(** [a / b] on ints (true division). *)
Definition truediv (a b : Z) : result Q :=
  if b =? 0 then Raise ZeroDivisionError
  else Ok (inject_Z a / inject_Z b)%Q.

(** Truthiness of a list: [if xs:]. *)
Definition truthy {A : Type} (xs : list A) : bool :=
  match xs with
  | [] => false
  | _ :: _ => true
  end.

(** ** The remote platform (PyGithub objects) *)

Record IssueComment := { comment_created_at : datetime }.

Record NamedUser := { login : string }.

Record PullRequestReview := {
  submitted_at : datetime;
  user : option NamedUser
}.

Record PullRequest := {
  created_at : datetime;
  merged_at : option datetime;
  commits : Z;
  comments : Z;
  review_comments : Z;
  get_issue_comments : list IssueComment;
  get_reviews : list PullRequestReview
}.

(** An item of [g.search_issues(...)]. *)
Record Issue := { number : Z }.

Record Repository := { get_pull : Z -> PullRequest }.

(** ** Progress output *)

Definition progress_report_interval : Z := 50.

(** [f"   Processed {count} PRs..."] *)
Definition progress_line (count : Z) : string :=
  ("   Processed " ++ NilZero.string_of_int (Z.to_int count) ++ " PRs...")%string.

(** ** The sampling loop

    [for pr in prs: if counter >= max_sample: break; body].  The result
    records, next to the final state, how many items were pulled from the
    iterator: the item on which [break] fires has been pulled already. *)

Section SamplingLoop.

Context {S : Type}.
Variable counter : S -> Z.
Variable max_sample : Z.
Variable body : Issue -> S -> S.

Fixpoint for_loop (prs : list Issue) (st : S) (pulled : nat) : S * nat :=
  match prs with
  | [] => (st, pulled)
  | pr :: rest =>
      if counter st >=? max_sample then (st, Datatypes.S pulled)
      else for_loop rest (body pr st) (Datatypes.S pulled)
  end.

(** The states at the end of each executed iteration, in order. *)
Fixpoint loop_trace (prs : list Issue) (st : S) : list S :=
  match prs with
  | [] => []
  | pr :: rest =>
      if counter st >=? max_sample then []
      else body pr st :: loop_trace rest (body pr st)
  end.

(** The items on which the body ran (one [get_pull] each). *)
Fixpoint processed (prs : list Issue) (st : S) : list Issue :=
  match prs with
  | [] => []
  | pr :: rest =>
      if counter st >=? max_sample then []
      else pr :: processed rest (body pr st)
  end.

End SamplingLoop.

(** ** Metric 2: PR cycle time *)

Module CycleTime.

Record State := {
  cycle_times : list Z;
  count : Z;
  out : list string
}.

Definition init : State :=
  {| cycle_times := []; count := 0; out := [] |}.

Definition max_sample : Z := 500.

Definition body (repo : Repository) (pr : Issue) (st : State) : State :=
  let pr_obj := get_pull repo (number pr) in
  let st1 :=
    match merged_at pr_obj with
    | Some merged =>
        let cycle_time := days (datetime_sub merged (created_at pr_obj)) in
        {| cycle_times := cycle_times st ++ [cycle_time];
           count := count st + 1;
           out := out st |}
    | None => st
    end in
  if count st1 mod progress_report_interval =? 0
  then {| cycle_times := cycle_times st1;
          count := count st1;
          out := out st1 ++ [progress_line (count st1)] |}
  else st1.

(** The items the loop processes: one [repo.get_pull] each. *)
Definition sampled (cap : Z) (repo : Repository) (prs : list Issue)
  : list Issue :=
  processed count cap (body repo) prs init.

Definition collect (cap : Z) (repo : Repository) (prs : list Issue)
  : State * nat :=
  for_loop count cap (body repo) prs init 0.

Definition trace (cap : Z) (repo : Repository) (prs : list Issue)
  : list State :=
  loop_trace count cap (body repo) prs init.

Definition run (repo : Repository) (prs : list Issue) : State :=
  fst (collect max_sample repo prs).

End CycleTime.

(** ** The [statistics] module of the Python standard library

    [median] and [mean] as CPython defines them: [median] sorts a copy of
    the data and takes the middle element, or the average of the two
    middle elements; [mean] divides the exact sum by the number of data
    points; both raise [StatisticsError] on empty data. *)

Module statistics.

Fixpoint insert (x : Q) (l : list Q) : list Q :=
  match l with
  | [] => [x]
  | y :: t => if Qle_bool x y then x :: l else y :: insert x t
  end.

(** [sorted(data)] (a stable sort). *)
Definition sorted (data : list Q) : list Q :=
  fold_right insert [] data.

Definition sum (data : list Q) : Q :=
  fold_right Qplus 0%Q data.

Definition median (data : list Q) : result Q :=
  let data := sorted data in
  let n := length data in
  if (n =? 0)%nat then Raise StatisticsError
  else if (n mod 2 =? 1)%nat then Ok (nth (n / 2) data 0%Q)
  else
    let i := (n / 2)%nat in
    Ok ((nth (i - 1) data 0 + nth i data 0) / 2)%Q.

Definition mean (data : list Q) : result Q :=
  let n := length data in
  if (n <? 1)%nat then Raise StatisticsError
  else Ok (sum data / inject_Z (Z.of_nat n))%Q.

End statistics.

(** The summary printed after the cycle-time loop (values as handed to
    the format specifications). *)
Module CycleTimeSummary.

Record Report := {
  median_days : Q;
  mean_days : Q;
  sample_size : nat
}.

(** [if cycle_times: print(median) print(mean) print(len)] *)
Definition summary (cycle_times : list Z) : result (option Report) :=
  if truthy cycle_times then
    md <- statistics.median (map inject_Z cycle_times) ;;
    mn <- statistics.mean (map inject_Z cycle_times) ;;
    Ok (Some {| median_days := md;
                mean_days := mn;
                sample_size := length cycle_times |})
  else Ok None.

Definition metric (repo : Repository) (prs : list Issue)
  : result (option Report) :=
  summary (CycleTime.cycle_times (CycleTime.run repo prs)).

End CycleTimeSummary.

(** ** Metric 3: PR response time *)

Module ResponseTime.

Record State := {
  response_times : list Q;
  count : Z;
  out : list string
}.

Definition init : State :=
  {| response_times := []; count := 0; out := [] |}.

Definition max_sample : Z := 300.

(** Lines 67-79: the first issue comment, then the first review if there
    is no comment or the review is earlier. *)
Definition first_response (pr_obj : PullRequest) : option datetime :=
  let first_response :=
    match get_issue_comments pr_obj with
    | c :: _ => Some (comment_created_at c)
    | [] => None
    end in
  match get_reviews pr_obj with
  | r :: _ =>
      let first_review := submitted_at r in
      match first_response with
      | None => Some first_review
      | Some fr => if first_review <? fr then Some first_review else Some fr
      end
  | [] => first_response
  end.

(** Lines 81-83: the observation appended for one item, if any. *)
Definition response_time (pr_obj : PullRequest) : option Q :=
  match first_response pr_obj with
  | Some fr =>
      if fr >? created_at pr_obj
      then Some (total_seconds (datetime_sub fr (created_at pr_obj)) / 3600)%Q
      else None
  | None => None
  end.

Definition body (repo : Repository) (pr : Issue) (st : State) : State :=
  let pr_obj := get_pull repo (number pr) in
  let response_times' :=
    match response_time pr_obj with
    | Some rt => response_times st ++ [rt]
    | None => response_times st
    end in
  let count' := count st + 1 in
  {| response_times := response_times';
     count := count';
     out := if count' mod progress_report_interval =? 0
            then out st ++ [progress_line count']
            else out st |}.

(** The items the loop processes: one [repo.get_pull] each. *)
Definition sampled (cap : Z) (repo : Repository) (prs : list Issue)
  : list Issue :=
  processed count cap (body repo) prs init.

Definition collect (cap : Z) (repo : Repository) (prs : list Issue)
  : State * nat :=
  for_loop count cap (body repo) prs init 0.

Definition trace (cap : Z) (repo : Repository) (prs : list Issue)
  : list State :=
  loop_trace count cap (body repo) prs init.

Definition run (repo : Repository) (prs : list Issue) : State :=
  fst (collect max_sample repo prs).

Record Report := {
  median_days : Q;
  mean_days : Q
}.

(** The unit conversion of lines 90-91: [hours / 24]. *)
Definition to_days (hours : Q) : Q := (hours / 24)%Q.

Definition summary (response_times : list Q) : result (option Report) :=
  if truthy response_times then
    md <- statistics.median response_times ;;
    mn <- statistics.mean response_times ;;
    Ok (Some {| median_days := to_days md; mean_days := to_days mn |})
  else Ok None.

Definition metric (repo : Repository) (prs : list Issue)
  : result (option Report) :=
  summary (response_times (run repo prs)).

End ResponseTime.

(** ** Metric 4: PR iteration count *)

Module IterationCount.

Record State := {
  iteration_counts : list Z;
  count : Z;
  out : list string
}.

Definition init : State :=
  {| iteration_counts := []; count := 0; out := [] |}.

Definition max_sample : Z := 300.

Definition body (repo : Repository) (pr : Issue) (st : State) : State :=
  let pr_obj := get_pull repo (number pr) in
  let count' := count st + 1 in
  {| iteration_counts := iteration_counts st ++ [commits pr_obj];
     count := count';
     out := if count' mod progress_report_interval =? 0
            then out st ++ [progress_line count']
            else out st |}.

(** The items the loop processes: one [repo.get_pull] each. *)
Definition sampled (cap : Z) (repo : Repository) (prs : list Issue)
  : list Issue :=
  processed count cap (body repo) prs init.

Definition collect (cap : Z) (repo : Repository) (prs : list Issue)
  : State * nat :=
  for_loop count cap (body repo) prs init 0.

Definition trace (cap : Z) (repo : Repository) (prs : list Issue)
  : list State :=
  loop_trace count cap (body repo) prs init.

Definition run (repo : Repository) (prs : list Issue) : State :=
  fst (collect max_sample repo prs).

Record Report := {
  average_commits : Q;
  median_commits : Q
}.

Definition summary (iteration_counts : list Z) : result (option Report) :=
  if truthy iteration_counts then
    mn <- statistics.mean (map inject_Z iteration_counts) ;;
    md <- statistics.median (map inject_Z iteration_counts) ;;
    Ok (Some {| average_commits := mn; median_commits := md |})
  else Ok None.

Definition metric (repo : Repository) (prs : list Issue)
  : result (option Report) :=
  summary (iteration_counts (run repo prs)).

End IterationCount.

(** ** Metric 5: review coverage *)

Module ReviewCoverage.

Record State := {
  multiple_reviewer_count : Z;
  total_sampled : Z;
  out : list string
}.

Definition init : State :=
  {| multiple_reviewer_count := 0; total_sampled := 0; out := [] |}.

Definition max_sample : Z := 300.

(** Lines 135-138: the set of logins of the reviews that have a user. *)
Definition reviewers (pr_obj : PullRequest) : set string :=
  fold_left
    (fun reviewers review =>
       match user review with
       | Some u => set_add string_dec (login u) reviewers
       | None => reviewers
       end)
    (get_reviews pr_obj) (empty_set string).

Definition body (repo : Repository) (pr : Issue) (st : State) : State :=
  let pr_obj := get_pull repo (number pr) in
  let multiple_reviewer_count' :=
    if Z.of_nat (length (reviewers pr_obj)) >=? 2
    then multiple_reviewer_count st + 1
    else multiple_reviewer_count st in
  let total_sampled' := total_sampled st + 1 in
  {| multiple_reviewer_count := multiple_reviewer_count';
     total_sampled := total_sampled';
     out := if total_sampled' mod progress_report_interval =? 0
            then out st ++ [progress_line total_sampled']
            else out st |}.

(** The items the loop processes: one [repo.get_pull] each. *)
Definition sampled (cap : Z) (repo : Repository) (prs : list Issue)
  : list Issue :=
  processed total_sampled cap (body repo) prs init.

Definition collect (cap : Z) (repo : Repository) (prs : list Issue)
  : State * nat :=
  for_loop total_sampled cap (body repo) prs init 0.

Definition run (repo : Repository) (prs : list Issue) : State :=
  fst (collect max_sample repo prs).

(** Line 147: [(multiple_reviewer_count / total_sampled) * 100],
    unguarded. *)
Definition review_coverage (st : State) : result Q :=
  q <- truediv (multiple_reviewer_count st) (total_sampled st) ;;
  Ok (q * 100)%Q.

Definition metric (repo : Repository) (prs : list Issue) : result Q :=
  review_coverage (run repo prs).

End ReviewCoverage.

(** ** Metric 6: review comment depth *)

Module CommentDepth.

Record State := {
  total_comments : Z;
  total_prs : Z;
  out : list string
}.

Definition init : State :=
  {| total_comments := 0; total_prs := 0; out := [] |}.

Definition max_sample : Z := 200.

Definition body (repo : Repository) (pr : Issue) (st : State) : State :=
  let pr_obj := get_pull repo (number pr) in
  let total_prs' := total_prs st + 1 in
  {| total_comments :=
       total_comments st + (comments pr_obj + review_comments pr_obj);
     total_prs := total_prs';
     out := if total_prs' mod progress_report_interval =? 0
            then out st ++ [progress_line total_prs']
            else out st |}.

(** The items the loop processes: one [repo.get_pull] each. *)
Definition sampled (cap : Z) (repo : Repository) (prs : list Issue)
  : list Issue :=
  processed total_prs cap (body repo) prs init.

Definition collect (cap : Z) (repo : Repository) (prs : list Issue)
  : State * nat :=
  for_loop total_prs cap (body repo) prs init 0.

Definition run (repo : Repository) (prs : list Issue) : State :=
  fst (collect max_sample repo prs).

(** Line 173: [total_comments / total_prs], unguarded. *)
Definition avg_comments (st : State) : result Q :=
  truediv (total_comments st) (total_prs st).

Definition metric (repo : Repository) (prs : list Issue) : result Q :=
  avg_comments (run repo prs).

End CommentDepth.

(** ** Lines 67-79 on a review without submission time

    PyGithub gives [submitted_at = None] for a review that is still
    pending.  [ResponseTime.first_response] takes the submission time of
    every review as present; here the first review may lack one.  With a
    comment present, line 78 then evaluates [first_review <
    first_response] on [None] and a datetime, which raises [TypeError];
    without a comment, [not first_response] holds and [first_response]
    becomes [None]. *)

Module PendingReview.

Record Review := { review_submitted_at : option datetime }.

Definition first_response (comments : list IssueComment)
    (reviews : list Review) : result (option datetime) :=
  let first_response :=
    match comments with
    | c :: _ => Some (comment_created_at c)
    | [] => None
    end in
  match reviews with
  | r :: _ =>
      let first_review := review_submitted_at r in
      match first_response with
      | None => Ok first_review
      | Some fr =>
          match first_review with
          | None => Raise TypeError
          | Some t => if t <? fr then Ok (Some t) else Ok (Some fr)
          end
      end
  | [] => Ok first_response
  end.

(** A review whose submission time is present. *)
Definition submitted (r : PullRequestReview) : Review :=
  {| review_submitted_at := Some (submitted_at r) |}.

End PendingReview.

(** ** Notions used to state the properties *)

(** What one item contributes to [cycle_times] (lines 38-40). *)
Definition cycle_time_of (pr_obj : PullRequest) : option Z :=
  match merged_at pr_obj with
  | Some merged => Some (days (datetime_sub merged (created_at pr_obj)))
  | None => None
  end.

Definition option_list {A : Type} (o : option A) : list A :=
  match o with
  | Some a => [a]
  | None => []
  end.

(** The observations a search result would yield if no cap applied. *)
Definition extract_all {A : Type} (extractor : PullRequest -> option A)
    (repo : Repository) (prs : list Issue) : list A :=
  flat_map (fun pr => option_list (extractor (get_pull repo (number pr)))) prs.

(** The time from [start] to [stop], in hours. *)
Definition elapsed_hours (start stop : datetime) : Q :=
  (inject_Z (stop - start) / inject_Z us_per_hour)%Q.

(** The progress lines of a run that has processed [n] items when one
    line is printed per [progress_report_interval] items: the lines for
    50, 100, ..., 50 * (n / 50). *)
Definition progress_lines (n : Z) : list string :=
  map (fun k => progress_line (progress_report_interval * Z.of_nat k))
      (seq 1 (Z.to_nat (n / progress_report_interval))).

(** One progress line per [progress_report_interval] processed items. *)
Definition once_per_interval (out : list string) (n_processed : nat) : Prop :=
  out = progress_lines (Z.of_nat n_processed).

(** The output so far is the progress lines of the counter. *)
Definition progress_reported {S : Type} (counter : S -> Z)
    (out : S -> list string) (s : S) : Prop :=
  0 <= counter s /\ out s = progress_lines (counter s).

(** The middle of a sorted sequence: its middle value when the length is
    odd, the average of its two middle values when the length is even. *)
Definition middle_of_sorted (s : list Q) : Q :=
  let n := length s in
  if Nat.odd n then nth (n / 2) s 0%Q
  else ((nth (n / 2 - 1) s 0 + nth (n / 2) s 0) / 2)%Q.

(** [m] is a median of [data]: at least half of the data lie at or below
    it and at least half at or above it. *)
Definition count_if (p : Q -> bool) (data : list Q) : nat :=
  length (filter p data).

Definition is_median (m : Q) (data : list Q) : Prop :=
  (length data <= 2 * count_if (fun x => Qle_bool x m) data)%nat /\
  (length data <= 2 * count_if (fun x => Qle_bool m x) data)%nat.

(** ** Sample data

    A small repository used to evaluate the definitions: pull requests 1,
    2 and 3 were merged 1 day 5 hours, 3 days and 5 days after creation;
    4 is open and has neither comment nor review; 5 got a comment after
    2 hours and a review after 6; 6 got a review after 3 hours and a
    comment after 9; 7 has a comment stamped at its own creation time. *)

Module Samples.

Definition hour : Z := us_per_hour.

Definition pull (created : datetime) (merged : option datetime)
    (comments_at reviews_at : list datetime) : PullRequest :=
  {| created_at := created;
     merged_at := merged;
     commits := 2;
     comments := Z.of_nat (length comments_at);
     review_comments := 0;
     get_issue_comments :=
       map (fun t => {| comment_created_at := t |}) comments_at;
     get_reviews :=
       map (fun t => {| submitted_at := t;
                        user := Some {| login := "octocat" |} |})
           reviews_at |}.

Definition repo : Repository :=
  {| get_pull := fun n =>
       if n =? 1 then pull 0 (Some (29 * hour)) [] []
       else if n =? 2 then pull 0 (Some (72 * hour)) [] []
       else if n =? 3 then pull 0 (Some (120 * hour)) [] []
       else if n =? 5 then pull 0 None [2 * hour] [6 * hour]
       else if n =? 6 then pull 0 None [9 * hour] [3 * hour]
       else if n =? 7 then pull (4 * hour) None [4 * hour] []
       else pull 0 None [] [] |}.

Definition search (numbers : list Z) : list Issue :=
  map (fun n => {| number := n |}) numbers.

End Samples.

(** ** The script as a whole

    The five metric blocks run one after the other (lines 24-175).  An
    exception in one block ends the script: the blocks after it do not
    run.  The value is the list of the summaries that were completed, in
    order, and the exception that ended the script, if any.  Each block
    issues its own search (lines 26, 56, 98, 124, 156). *)

Module Script.





End Script.

(** ** Further notions *)

(** The logins of the reviews of a pull request that have a user, one per
    review, in order. *)
Definition review_logins (pr_obj : PullRequest) : list string :=
  flat_map (fun review => option_list (option_map login (user review)))
           (get_reviews pr_obj).

(** The test of line 140. *)
Definition multiple_reviewers (repo : Repository) (pr : Issue) : bool :=
  Z.of_nat (length (ReviewCoverage.reviewers (get_pull repo (number pr)))) >=? 2.

(** The summand of line 167. *)
Definition comment_total (repo : Repository) (pr : Issue) : Z :=
  comments (get_pull repo (number pr))
  + review_comments (get_pull repo (number pr)).

Definition sum_Z (l : list Z) : Z := fold_right Z.add 0 l.

(** A second sample repository, with reviews by several users: pull
    request 1 has reviews by alice, bob and alice again, 2 has two reviews
    by alice, 3 has one review without user and one by bob; any other
    number has no review.  Pull request [n] has [n] comments and one
    review comment. *)

Module ReviewSamples.

Definition review (who : option string) : PullRequestReview :=
  {| submitted_at := 0;
     user := option_map (fun l => {| login := l |}) who |}.

Definition pull (n : Z) (reviews : list PullRequestReview) : PullRequest :=
  {| created_at := 0;
     merged_at := Some us_per_day;
     commits := n;
     comments := n;
     review_comments := 1;
     get_issue_comments := [];
     get_reviews := reviews |}.

Definition repo : Repository :=
  {| get_pull := fun n =>
       if n =? 1
       then pull n [review (Some "alice"%string); review (Some "bob"%string);
                    review (Some "alice"%string)]
       else if n =? 2
       then pull n [review (Some "alice"%string); review (Some "alice"%string)]
       else if n =? 3
       then pull n [review None; review (Some "bob"%string)]
       else pull n [] |}.

End ReviewSamples.

(** * Properties *)

(** ** The sampling loop *)

Section SamplingLoopFacts.

Context {S : Type}.
Variable counter : S -> Z.
Variable max_sample : Z.
Variable body : Issue -> S -> S.

Abbreviation loop := (for_loop counter max_sample body).
Abbreviation states := (loop_trace counter max_sample body).
Abbreviation items := (processed counter max_sample body).

Lemma last_cons {A : Type} (x d : A) (l : list A) :
  last (x :: l) d = last l x.
Proof.
  revert x d; induction l as [|y l IH]; intros x d; [reflexivity|].
  change (last (x :: y :: l) d) with (last (y :: l) d).
  now rewrite (IH y d), (IH y x).
Qed.

Lemma for_loop_final prs : forall st p,
  fst (loop prs st p) = last (states prs st) st.
Proof.
  induction prs as [|pr rest IH]; intros st p; simpl; [reflexivity|].
  destruct (counter st >=? max_sample); [reflexivity|].
  now rewrite IH, last_cons.
Qed.

Lemma loop_trace_length prs : forall st,
  length (states prs st) = length (items prs st).
Proof.
  induction prs as [|pr rest IH]; intros st; simpl; [reflexivity|].
  destruct (counter st >=? max_sample); simpl; [reflexivity|].
  now rewrite IH.
Qed.

(** The processed items are an initial segment of the search result. *)
Lemma processed_prefix prs : forall st,
  exists rest, prs = items prs st ++ rest.
Proof.
  induction prs as [|pr prs IH]; intros st; simpl.
  - now exists [].
  - destruct (counter st >=? max_sample).
    + now exists (pr :: prs).
    + destruct (IH (body pr st)) as [rest E].
      exists rest. simpl. now rewrite <- E.
Qed.

(** The iterator hands out every processed item and at most the one
    item on which [break] fires. *)
Lemma for_loop_pulled prs : forall st p,
  let n := length (items prs st) in
  (p + n <= snd (loop prs st p) <= p + n + 1)%nat /\
  (snd (loop prs st p) <= p + length prs)%nat /\
  (snd (loop prs st p) = (p + n + 1)%nat ->
   max_sample <= counter (fst (loop prs st p))).
Proof.
  induction prs as [|pr rest IH]; intros st p; simpl.
  - repeat split; lia.
  - destruct (counter st >=? max_sample) eqn:E; simpl.
    + repeat split; lia.
    + specialize (IH (body pr st) (Datatypes.S p)); simpl in IH.
      destruct IH as (IH1 & IH2 & IH3).
      repeat split; lia.
Qed.

(** A property kept by every executed iteration holds after each of
    them. *)
Lemma loop_trace_invariant (P : S -> Prop) prs :
  (forall pr s, In pr prs -> counter s < max_sample -> P s -> P (body pr s)) ->
  forall st, P st -> Forall P (states prs st).
Proof.
  induction prs as [|pr rest IH]; intros step st Hst; simpl.
  - constructor.
  - destruct (counter st >=? max_sample) eqn:E; [constructor|].
    assert (P (body pr st)) by (apply step; [now left | lia | assumption]).
    constructor; [assumption|].
    apply IH; [|assumption].
    intros pr' s Hin; apply step; now right.
Qed.

Lemma for_loop_invariant (P : S -> Prop) prs :
  (forall pr s, In pr prs -> counter s < max_sample -> P s -> P (body pr s)) ->
  forall st p, P st -> P (fst (loop prs st p)).
Proof.
  induction prs as [|pr rest IH]; intros step st p Hst; simpl.
  - assumption.
  - destruct (counter st >=? max_sample) eqn:E; [assumption|].
    apply IH.
    + intros pr' s Hin; apply step; now right.
    + apply step; [now left | lia | assumption].
Qed.

(** Once a state has its counter at the cap, no iteration follows. *)
Lemma loop_trace_stops prs : forall st pre s post,
  st :: states prs st = pre ++ s :: post ->
  max_sample <= counter s ->
  post = [].
Proof.
  induction prs as [|pr rest IH]; intros st pre s post E Hs.
  - simpl in E. destruct pre as [|x pre]; simpl in E.
    + now inversion E.
    + inversion E as [[Ex E']]. now destruct pre.
  - simpl in E. destruct (counter st >=? max_sample) eqn:T.
    + destruct pre as [|x pre]; simpl in E.
      * now inversion E.
      * inversion E as [[Ex E']]. now destruct pre.
    + destruct pre as [|x pre]; simpl in E.
      * inversion E; subst. lia.
      * inversion E as [[Ex E']].
        apply (IH (body pr x) pre s post E' Hs).
Qed.

(** Loops whose body counts every item it is given. *)
Section CountAll.

Hypothesis body_counts : forall pr s, counter (body pr s) = counter s + 1.

Lemma for_loop_count_all prs : forall st p,
  fst (loop prs st p) =
  fold_left (fun s pr => body pr s)
            (firstn (Z.to_nat (max_sample - counter st)) prs) st.
Proof.
  induction prs as [|pr rest IH]; intros st p; simpl.
  - now rewrite firstn_nil.
  - destruct (counter st >=? max_sample) eqn:E.
    + replace (Z.to_nat (max_sample - counter st)) with 0%nat by lia.
      reflexivity.
    + replace (Z.to_nat (max_sample - counter st))
        with (Datatypes.S (Z.to_nat (max_sample - counter (body pr st))))
        by (rewrite body_counts; lia).
      simpl. apply IH.
Qed.

Lemma processed_count_all prs : forall st,
  items prs st = firstn (Z.to_nat (max_sample - counter st)) prs.
Proof.
  induction prs as [|pr rest IH]; intros st; simpl.
  - now rewrite firstn_nil.
  - destruct (counter st >=? max_sample) eqn:E.
    + replace (Z.to_nat (max_sample - counter st)) with 0%nat by lia.
      reflexivity.
    + replace (Z.to_nat (max_sample - counter st))
        with (Datatypes.S (Z.to_nat (max_sample - counter (body pr st))))
        by (rewrite body_counts; lia).
      simpl. now rewrite IH.
Qed.

Lemma counter_fold_left l : forall st,
  counter (fold_left (fun s pr => body pr s) l st) =
  counter st + Z.of_nat (length l).
Proof.
  induction l as [|pr l IH]; intros st; simpl; [lia|].
  rewrite IH, body_counts. lia.
Qed.

(** The counter ends at the number of items processed. *)
Lemma for_loop_counter prs st p :
  counter (fst (loop prs st p)) =
  counter st + Z.of_nat (length (items prs st)).
Proof.
  now rewrite for_loop_count_all, processed_count_all, counter_fold_left.
Qed.

End CountAll.

End SamplingLoopFacts.

(** ** Dates and durations *)

Lemma datetime_sub_total (a b : datetime) :
  (days (datetime_sub a b) * 86400 + seconds (datetime_sub a b)) * 10 ^ 6
    + microseconds (datetime_sub a b) = a - b.
Proof.
  unfold datetime_sub, us_per_day, us_per_second; simpl days; simpl seconds;
    simpl microseconds.
  change (10 ^ 6) with 1000000.
  Z.div_mod_to_equations. lia.
Qed.

Lemma total_seconds_datetime_sub (a b : datetime) :
  (total_seconds (datetime_sub a b) == inject_Z (a - b) / inject_Z (10 ^ 6))%Q.
Proof.
  unfold total_seconds. now rewrite datetime_sub_total.
Qed.

Lemma days_datetime_sub (a b : datetime) :
  days (datetime_sub a b) * us_per_day <= a - b
    < (days (datetime_sub a b) + 1) * us_per_day.
Proof.
  unfold datetime_sub, us_per_day, us_per_second; simpl.
  Z.div_mod_to_equations. lia.
Qed.

(** ** The cycle-time loop *)

Lemma cycle_body_fields repo pr st :
  let o := option_list (cycle_time_of (get_pull repo (number pr))) in
  CycleTime.cycle_times (CycleTime.body repo pr st)
    = CycleTime.cycle_times st ++ o /\
  CycleTime.count (CycleTime.body repo pr st)
    = CycleTime.count st + Z.of_nat (length o).
Proof.
  unfold CycleTime.body, cycle_time_of.
  destruct (merged_at (get_pull repo (number pr))); simpl;
    match goal with |- context [if ?b then _ else _] => destruct b end;
    simpl; rewrite ?app_nil_r; split; reflexivity || lia.
Qed.

(** The loop collects the first [cap] observations the search result
    yields, and counts exactly those. *)
Lemma cycle_loop_spec repo cap prs : forall st p,
  let r := fst (for_loop CycleTime.count cap (CycleTime.body repo) prs st p) in
  let taken := firstn (Z.to_nat (cap - CycleTime.count st))
                      (extract_all cycle_time_of repo prs) in
  CycleTime.cycle_times r = CycleTime.cycle_times st ++ taken /\
  CycleTime.count r = CycleTime.count st + Z.of_nat (length taken).
Proof.
  induction prs as [|pr rest IH]; intros st p; simpl.
  - rewrite firstn_nil, app_nil_r. simpl. split; [reflexivity | lia].
  - destruct (CycleTime.count st >=? cap) eqn:E.
    + replace (Z.to_nat (cap - CycleTime.count st)) with 0%nat by lia.
      simpl. rewrite app_nil_r. split; [reflexivity | lia].
    + destruct (IH (CycleTime.body repo pr st) (S p)) as [IH1 IH2].
      destruct (cycle_body_fields repo pr st) as [B1 B2].
      simpl in *. rewrite IH1, IH2, B1, B2. clear IH1 IH2 B1 B2.
      destruct (cycle_time_of (get_pull repo (number pr))) as [d|]; simpl.
      * replace (Z.to_nat (cap - CycleTime.count st))
          with (S (Z.to_nat (cap - (CycleTime.count st + 1)))) by lia.
        simpl. rewrite <- app_assoc. simpl. split; [reflexivity | lia].
      * rewrite app_nil_r, Z.add_0_r. split; reflexivity.
Qed.

Lemma cycle_collect_spec cap repo prs :
  let r := fst (CycleTime.collect cap repo prs) in
  CycleTime.cycle_times r
    = firstn (Z.to_nat cap) (extract_all cycle_time_of repo prs) /\
  CycleTime.count r = Z.of_nat (length (CycleTime.cycle_times r)).
Proof.
  unfold CycleTime.collect.
  destruct (cycle_loop_spec repo cap prs CycleTime.init 0) as [H1 H2].
  simpl in *. rewrite Z.sub_0_r in *. rewrite H1, H2. split; reflexivity.
Qed.

Lemma cycle_body_invariant repo pr st :
  CycleTime.count st = Z.of_nat (length (CycleTime.cycle_times st)) ->
  CycleTime.count (CycleTime.body repo pr st)
    = Z.of_nat (length (CycleTime.cycle_times (CycleTime.body repo pr st))).
Proof.
  intros H. destruct (cycle_body_fields repo pr st) as [B1 B2].
  simpl in *. rewrite B1, B2, length_app. lia.
Qed.

(** ** The loops that count every item *)

(** Rewrites a loop whose body satisfies [C : counter (body pr s) =
    counter s + 1] into a fold over the items it processes. *)
Ltac count_all_loop C :=
  rewrite (for_loop_count_all _ _ _ C), (processed_count_all _ _ _ C),
    (counter_fold_left _ _ C).

Lemma response_fold repo l : forall st,
  ResponseTime.response_times
    (fold_left (fun s pr => ResponseTime.body repo pr s) l st)
  = ResponseTime.response_times st
      ++ extract_all ResponseTime.response_time repo l.
Proof.
  induction l as [|pr l IH]; intros st; simpl.
  - now rewrite app_nil_r.
  - rewrite IH. unfold ResponseTime.body; simpl.
    destruct (ResponseTime.response_time (get_pull repo (number pr))); simpl.
    + now rewrite <- app_assoc.
    + reflexivity.
Qed.

(** The response-time loop looks at the first [cap] items and keeps the
    response times of those that have one. *)
Lemma response_collect_spec cap repo prs :
  let r := fst (ResponseTime.collect cap repo prs) in
  ResponseTime.sampled cap repo prs = firstn (Z.to_nat cap) prs /\
  ResponseTime.response_times r
    = extract_all ResponseTime.response_time repo (firstn (Z.to_nat cap) prs) /\
  ResponseTime.count r = Z.of_nat (length (firstn (Z.to_nat cap) prs)).
Proof.
  unfold ResponseTime.collect, ResponseTime.sampled.
  assert (C : forall pr s, ResponseTime.count (ResponseTime.body repo pr s)
                           = ResponseTime.count s + 1) by reflexivity.
  count_all_loop C. rewrite response_fold.
  simpl. rewrite Z.sub_0_r. repeat split.
Qed.

Lemma iteration_fold repo l : forall st,
  IterationCount.iteration_counts
    (fold_left (fun s pr => IterationCount.body repo pr s) l st)
  = IterationCount.iteration_counts st
      ++ map (fun pr => commits (get_pull repo (number pr))) l.
Proof.
  induction l as [|pr l IH]; intros st; simpl.
  - now rewrite app_nil_r.
  - rewrite IH. simpl. now rewrite <- app_assoc.
Qed.

Lemma iteration_collect_spec cap repo prs :
  let r := fst (IterationCount.collect cap repo prs) in
  IterationCount.sampled cap repo prs = firstn (Z.to_nat cap) prs /\
  IterationCount.iteration_counts r
    = map (fun pr => commits (get_pull repo (number pr)))
          (firstn (Z.to_nat cap) prs) /\
  IterationCount.count r = Z.of_nat (length (firstn (Z.to_nat cap) prs)).
Proof.
  unfold IterationCount.collect, IterationCount.sampled.
  assert (C : forall pr s, IterationCount.count (IterationCount.body repo pr s)
                           = IterationCount.count s + 1) by reflexivity.
  count_all_loop C. rewrite iteration_fold.
  simpl. rewrite Z.sub_0_r. repeat split.
Qed.

Lemma comment_depth_collect_spec cap repo prs :
  let r := fst (CommentDepth.collect cap repo prs) in
  CommentDepth.sampled cap repo prs = firstn (Z.to_nat cap) prs /\
  CommentDepth.total_prs r = Z.of_nat (length (firstn (Z.to_nat cap) prs)).
Proof.
  unfold CommentDepth.collect, CommentDepth.sampled.
  assert (C : forall pr s, CommentDepth.total_prs (CommentDepth.body repo pr s)
                           = CommentDepth.total_prs s + 1) by reflexivity.
  count_all_loop C.
  simpl. rewrite Z.sub_0_r. repeat split.
Qed.

Lemma review_coverage_collect_spec cap repo prs :
  let r := fst (ReviewCoverage.collect cap repo prs) in
  ReviewCoverage.sampled cap repo prs = firstn (Z.to_nat cap) prs /\
  ReviewCoverage.total_sampled r
    = Z.of_nat (length (firstn (Z.to_nat cap) prs)).
Proof.
  unfold ReviewCoverage.collect, ReviewCoverage.sampled.
  assert (C : forall pr s,
             ReviewCoverage.total_sampled (ReviewCoverage.body repo pr s)
             = ReviewCoverage.total_sampled s + 1) by reflexivity.
  count_all_loop C.
  simpl. rewrite Z.sub_0_r. repeat split.
Qed.

Lemma length_firstn_cap {A : Type} (cap : Z) (l : list A) :
  0 <= cap ->
  Z.of_nat (length (firstn (Z.to_nat cap) l)) = Z.min (Z.of_nat (length l)) cap.
Proof.
  intros H. rewrite length_firstn. lia.
Qed.

(** ** Progress output *)

Lemma progress_lines_succ (c : Z) :
  0 <= c ->
  progress_lines (c + 1) =
  if (c + 1) mod progress_report_interval =? 0
  then progress_lines c ++ [progress_line (c + 1)]
  else progress_lines c.
Proof.
  intros Hc. unfold progress_lines, progress_report_interval.
  destruct ((c + 1) mod 50 =? 0) eqn:E.
  - replace (Z.to_nat ((c + 1) / 50)) with (S (Z.to_nat (c / 50)))
      by (Z.div_mod_to_equations; lia).
    rewrite seq_S, map_app. simpl. do 3 f_equal.
    Z.div_mod_to_equations; lia.
  - replace (Z.to_nat ((c + 1) / 50)) with (Z.to_nat (c / 50))
      by (Z.div_mod_to_equations; lia).
    reflexivity.
Qed.

Lemma progress_lines_only (n : Z) (line : string) :
  In line (progress_lines n) -> exists k, line = progress_line k.
Proof.
  unfold progress_lines. rewrite in_map_iff.
  intros (k & <- & _). eauto.
Qed.

Section ProgressFacts.

Context {S : Type}.
Variable counter : S -> Z.
Variable out : S -> list string.
Variable max_sample : Z.
Variable body : Issue -> S -> S.

Hypothesis body_counts : forall pr s, counter (body pr s) = counter s + 1.
Hypothesis body_prints : forall pr s,
  out (body pr s) =
  if (counter s + 1) mod progress_report_interval =? 0
  then out s ++ [progress_line (counter s + 1)]
  else out s.

Abbreviation reported := (progress_reported counter out).

Lemma reported_body pr s : reported s -> reported (body pr s).
Proof.
  intros [H0 H]. split.
  - rewrite body_counts. lia.
  - rewrite body_prints, body_counts, H.
    now rewrite progress_lines_succ.
Qed.

Lemma reported_loop prs st p :
  reported st ->
  reported (fst (for_loop counter max_sample body prs st p)) /\
  Forall reported (loop_trace counter max_sample body prs st).
Proof.
  intros H. split.
  - apply for_loop_invariant; [|assumption].
    intros; now apply reported_body.
  - apply loop_trace_invariant; [|assumption].
    intros; now apply reported_body.
Qed.

(** From a fresh counter the output is one line per interval of
    processed items. *)
Lemma once_per_interval_loop prs st p :
  counter st = 0 -> out st = [] ->
  once_per_interval
    (out (fst (for_loop counter max_sample body prs st p)))
    (length (processed counter max_sample body prs st)).
Proof.
  intros Hc Ho.
  assert (R : reported st) by (split; [lia | now rewrite Ho, Hc]).
  destruct (reported_loop prs st p R) as [[_ H] _].
  unfold once_per_interval.
  rewrite H, (for_loop_counter _ _ _ body_counts), Hc. reflexivity.
Qed.

End ProgressFacts.

(** When every item is merged the cycle-time loop counts every item. *)
Lemma cycle_all_merged cap repo prs :
  Forall (fun pr => merged_at (get_pull repo (number pr)) <> None) prs ->
  forall st p,
    0 <= CycleTime.count st ->
    CycleTime.out st = progress_lines (CycleTime.count st) ->
    let r := fst (for_loop CycleTime.count cap (CycleTime.body repo) prs st p) in
    CycleTime.out r = progress_lines (CycleTime.count r) /\
    CycleTime.count r
      = CycleTime.count st
        + Z.of_nat (length (processed CycleTime.count cap
                                      (CycleTime.body repo) prs st)).
Proof.
  induction 1 as [|pr rest Hpr Hrest IH]; intros st p H0 Hout; simpl.
  - split; [assumption | lia].
  - destruct (CycleTime.count st >=? cap) eqn:E; simpl.
    + split; [assumption | lia].
    + assert (B : CycleTime.count (CycleTime.body repo pr st)
                  = CycleTime.count st + 1 /\
                  CycleTime.out (CycleTime.body repo pr st)
                  = progress_lines (CycleTime.count st + 1)).
      { unfold CycleTime.body.
        destruct (merged_at (get_pull repo (number pr))) as [m|];
          [|contradiction].
        simpl. rewrite progress_lines_succ by assumption.
        destruct ((CycleTime.count st + 1) mod progress_report_interval =? 0);
          simpl; rewrite Hout; split; reflexivity. }
      destruct B as [B1 B2].
      destruct (IH (CycleTime.body repo pr st) (S p)) as [I1 I2].
      * rewrite B1; lia.
      * now rewrite B1.
      * simpl in *. split; [assumption|]. rewrite I2, B1. lia.
Qed.

(** Whatever the items, the cycle-time loop prints progress lines only. *)
Lemma cycle_out_progress cap repo prs line :
  In line (CycleTime.out (fst (CycleTime.collect cap repo prs))) ->
  exists k, line = progress_line k.
Proof.
  unfold CycleTime.collect.
  apply (for_loop_invariant CycleTime.count cap (CycleTime.body repo)
           (fun s => In line (CycleTime.out s) -> exists k, line = progress_line k)).
  - intros pr s _ _ Hs. unfold CycleTime.body.
    destruct (merged_at (get_pull repo (number pr))); simpl;
      match goal with |- context [if ?b then _ else _] => destruct b end;
      simpl; try assumption;
      rewrite in_app_iff; (intros [H|[<-|[]]]; [auto | eauto]).
  - simpl. intros [].
Qed.

(** ** Counter and observations *)

(** C1 (as the code has it).  In the cycle-time and iteration-count loops
    the counter checked against the cap equals the number of collected
    observations before the first iteration, after every iteration and at
    completion.  In the
    response-time loop the counter counts every processed item, so the
    number of observations is only bounded by it. *)
Theorem counter_matches_observations (cap : Z) (repo : Repository)
    (prs : list Issue) :
  let cycle s :=
    CycleTime.count s = Z.of_nat (length (CycleTime.cycle_times s)) in
  let iteration s :=
    IterationCount.count s
    = Z.of_nat (length (IterationCount.iteration_counts s)) in
  let response s :=
    Z.of_nat (length (ResponseTime.response_times s)) <= ResponseTime.count s in
  (Forall cycle (CycleTime.init :: CycleTime.trace cap repo prs) /\
   cycle (fst (CycleTime.collect cap repo prs))) /\
  (Forall iteration (IterationCount.init :: IterationCount.trace cap repo prs) /\
   iteration (fst (IterationCount.collect cap repo prs))) /\
  (Forall response (ResponseTime.init :: ResponseTime.trace cap repo prs) /\
   response (fst (ResponseTime.collect cap repo prs))).
Proof.
  intros cycle iteration response.
  assert (Hc : forall pr s, cycle s -> cycle (CycleTime.body repo pr s))
    by (intros pr s; apply cycle_body_invariant).
  assert (Hi : forall pr s,
             iteration s -> iteration (IterationCount.body repo pr s)).
  { intros pr s H. unfold iteration in *. simpl.
    rewrite length_app, H. simpl. lia. }
  assert (Hr : forall pr s,
             response s -> response (ResponseTime.body repo pr s)).
  { intros pr s H. unfold response in *. simpl.
    destruct (ResponseTime.response_time (get_pull repo (number pr)));
      [rewrite length_app; simpl|]; lia. }
  unfold CycleTime.trace, CycleTime.collect, IterationCount.trace,
    IterationCount.collect, ResponseTime.trace, ResponseTime.collect.
  assert (Rc : cycle CycleTime.init) by reflexivity.
  assert (Ri : iteration IterationCount.init) by reflexivity.
  assert (Rr : response ResponseTime.init) by (unfold response; simpl; lia).
  repeat split.
  - constructor; [assumption|]. apply loop_trace_invariant; auto.
  - apply for_loop_invariant; auto.
  - constructor; [assumption|]. apply loop_trace_invariant; auto.
  - apply for_loop_invariant; auto.
  - constructor; [assumption|]. apply loop_trace_invariant; auto.
  - apply for_loop_invariant; auto.
Qed.

(** C1 as stated fails on the response-time loop: one sampled pull
    request without comment or review leaves the counter at 1 and the
    observations empty. *)
Lemma counter_matches_observations_fails :
  ResponseTime.count
    (fst (ResponseTime.collect ResponseTime.max_sample Samples.repo
            (Samples.search [4])))
  <> Z.of_nat
       (length
          (ResponseTime.response_times
             (fst (ResponseTime.collect ResponseTime.max_sample Samples.repo
                     (Samples.search [4]))))).
Proof.
  vm_compute. discriminate.
Qed.

(** ** The cap of the cycle-time loop *)

(** C2.  With [N] extractable (merged) items in the search result and a
    cap that is not negative, the cycle-time loop collects the first
    [min N cap] observations: [cap] of them when [cap <= N], all [N] when
    [N < cap].  No iteration runs from a state whose counter has reached
    the cap; the processed items are an initial segment of the search
    result, and the iterator hands out at most one item beyond them, which
    happens only when the cap has been reached. *)
Theorem cycle_time_cap (cap : Z) (repo : Repository) (prs : list Issue) :
  0 <= cap ->
  let r := CycleTime.collect cap repo prs in
  let N := Z.of_nat (length (extract_all cycle_time_of repo prs)) in
  let n_sampled := length (CycleTime.sampled cap repo prs) in
  (cap <= N ->
   CycleTime.count (fst r) = cap /\
   Z.of_nat (length (CycleTime.cycle_times (fst r))) = cap) /\
  (N < cap ->
   CycleTime.count (fst r) = N /\
   Z.of_nat (length (CycleTime.cycle_times (fst r))) = N) /\
  CycleTime.cycle_times (fst r)
    = firstn (Z.to_nat cap) (extract_all cycle_time_of repo prs) /\
  (forall pre s post,
     CycleTime.init :: CycleTime.trace cap repo prs = pre ++ s :: post ->
     cap <= CycleTime.count s -> post = []) /\
  fst r = last (CycleTime.trace cap repo prs) CycleTime.init /\
  length (CycleTime.trace cap repo prs) = n_sampled /\
  (exists rest, prs = CycleTime.sampled cap repo prs ++ rest) /\
  (n_sampled <= snd r <= n_sampled + 1)%nat /\
  (snd r <= length prs)%nat /\
  (snd r = (n_sampled + 1)%nat -> cap <= CycleTime.count (fst r)).
Proof.
  intros Hcap r N n_sampled.
  destruct (cycle_collect_spec cap repo prs) as [H1 H2].
  fold r in H1, H2.
  assert (L : Z.of_nat (length (CycleTime.cycle_times (fst r))) = Z.min N cap)
    by (rewrite H1; now apply length_firstn_cap).
  destruct (for_loop_pulled CycleTime.count cap (CycleTime.body repo)
              prs CycleTime.init 0) as (P1 & P2 & P3).
  split; [lia|]. split; [lia|]. split; [exact H1|].
  split; [intros pre s post; apply loop_trace_stops|].
  split; [apply for_loop_final|].
  split; [apply loop_trace_length|].
  split; [apply processed_prefix|].
  split; [exact P1|]. split; [exact P2 | exact P3].
Qed.

Lemma cycle_time_cap_witness :
  CycleTime.count
    (fst (CycleTime.collect 2 Samples.repo (Samples.search [1; 4; 2; 3; 4])))
  = 2.
Proof.
  apply (cycle_time_cap 2 Samples.repo (Samples.search [1; 4; 2; 3; 4]));
    [lia | vm_compute; discriminate].
Defined.

(** Extractors that succeed on the same items yield as many
    observations. *)
Lemma extract_all_length {A B : Type} (f : PullRequest -> option A)
    (g : PullRequest -> option B) (repo : Repository) (prs : list Issue) :
  (forall pr_obj, length (option_list (f pr_obj))
                  = length (option_list (g pr_obj))) ->
  length (extract_all f repo prs) = length (extract_all g repo prs).
Proof.
  intros H. unfold extract_all.
  induction prs as [|pr rest IH]; simpl; [reflexivity|].
  now rewrite !length_app, IH, H.
Qed.

(** ** Counting policies *)

(** C4.  One iteration of the cycle-time loop adds one to the counter
    exactly when the item is merged and yields an observation; one
    iteration of the iteration-count and comment-depth loops always adds
    one.  Over a run with a cap that is not negative, the cycle-time
    counter ends at the number of merged items or the cap, the other two
    at the number of items or the cap. *)
Theorem counting_policies (repo : Repository) (prs : list Issue) :
  (forall pr st,
     let merged :=
       length (option_list (merged_at (get_pull repo (number pr)))) in
     CycleTime.count (CycleTime.body repo pr st)
       = CycleTime.count st + Z.of_nat merged /\
     length (CycleTime.cycle_times (CycleTime.body repo pr st))
       = (length (CycleTime.cycle_times st) + merged)%nat) /\
  (forall pr st,
     IterationCount.count (IterationCount.body repo pr st)
       = IterationCount.count st + 1 /\
     length (IterationCount.iteration_counts (IterationCount.body repo pr st))
       = (length (IterationCount.iteration_counts st) + 1)%nat) /\
  (forall pr st,
     CommentDepth.total_prs (CommentDepth.body repo pr st)
       = CommentDepth.total_prs st + 1) /\
  (forall cap,
     0 <= cap ->
     CycleTime.count (fst (CycleTime.collect cap repo prs))
       = Z.min (Z.of_nat (length (extract_all merged_at repo prs))) cap /\
     IterationCount.count (fst (IterationCount.collect cap repo prs))
       = Z.min (Z.of_nat (length prs)) cap /\
     CommentDepth.total_prs (fst (CommentDepth.collect cap repo prs))
       = Z.min (Z.of_nat (length prs)) cap).
Proof.
  split; [|split; [|split; [|]]].
  - intros pr st merged.
    destruct (cycle_body_fields repo pr st) as [B1 B2]. simpl in B1, B2.
    rewrite B1, B2, length_app. unfold cycle_time_of, merged.
    now destruct (merged_at (get_pull repo (number pr))).
  - intros pr st. simpl. rewrite length_app. simpl. split; [reflexivity | lia].
  - reflexivity.
  - intros cap Hcap. split; [|split].
    + destruct (cycle_collect_spec cap repo prs) as [H1 H2]. simpl in *.
      rewrite H2, H1, length_firstn_cap by assumption.
      rewrite (extract_all_length cycle_time_of merged_at); [reflexivity|].
      intros pr_obj. unfold cycle_time_of. now destruct (merged_at pr_obj).
    + destruct (iteration_collect_spec cap repo prs) as (_ & _ & H).
      simpl in H. rewrite H. now apply length_firstn_cap.
    + destruct (comment_depth_collect_spec cap repo prs) as (_ & H).
      simpl in H. rewrite H. now apply length_firstn_cap.
Qed.

Lemma counting_policies_witness :
  CycleTime.count
    (fst (CycleTime.collect 3 Samples.repo (Samples.search [4; 1; 4; 2]))) = 2 /\
  IterationCount.count
    (fst (IterationCount.collect 3 Samples.repo (Samples.search [4; 1; 4; 2])))
  = 3.
Proof.
  destruct (counting_policies Samples.repo (Samples.search [4; 1; 4; 2]))
    as (_ & _ & _ & H).
  destruct (H 3) as (H1 & H2 & _); [lia|].
  split; [exact H1 | exact H2].
Defined.

(** ** Cycle time in whole days *)

(** C10.  For an item merged at or after its creation, the observation
    appended by the cycle-time loop is the day component of the
    difference: the duration truncated to whole days.  The part below one
    day is dropped, and the observation is 0 exactly when the merge came
    less than 24 hours after the creation.  The median and the mean are
    computed from these whole-day values. *)
Theorem cycle_time_whole_days (repo : Repository) (prs : list Issue) :
  (forall pr st merged,
     let pr_obj := get_pull repo (number pr) in
     merged_at pr_obj = Some merged ->
     created_at pr_obj <= merged ->
     let duration := merged - created_at pr_obj in
     let d := duration ÷ us_per_day in
     CycleTime.cycle_times (CycleTime.body repo pr st)
       = CycleTime.cycle_times st ++ [d] /\
     0 <= d /\
     d * us_per_day <= duration < (d + 1) * us_per_day /\
     (d = 0 <-> duration < 24 * us_per_hour)) /\
  CycleTimeSummary.metric repo prs
  = CycleTimeSummary.summary
      (firstn (Z.to_nat CycleTime.max_sample)
              (extract_all cycle_time_of repo prs)).
Proof.
  split.
  - intros pr st merged pr_obj Hm Hle duration d.
    destruct (cycle_body_fields repo pr st) as [B _]. simpl in B.
    fold pr_obj in B. unfold cycle_time_of in B. rewrite Hm in B. simpl in B.
    pose proof (days_datetime_sub merged (created_at pr_obj)) as D.
    fold duration in D.
    assert (Q : d = days (datetime_sub merged (created_at pr_obj))).
    { unfold d. rewrite Z.quot_div_nonneg; [reflexivity | lia |].
      unfold us_per_day, us_per_second; lia. }
    split; [now rewrite B, Q|].
    rewrite <- Q in D. clear B Q.
    unfold us_per_hour, us_per_day, us_per_second in *.
    repeat split; lia.
  - unfold CycleTimeSummary.metric, CycleTime.run.
    destruct (cycle_collect_spec CycleTime.max_sample repo prs) as [H _].
    simpl in H. now rewrite H.
Qed.

Lemma cycle_time_whole_days_witness :
  CycleTime.cycle_times
    (CycleTime.body Samples.repo {| number := 1 |} CycleTime.init) = [1].
Proof.
  destruct (cycle_time_whole_days Samples.repo []) as [H _].
  apply (H {| number := 1 |} CycleTime.init (29 * Samples.hour)).
  - reflexivity.
  - vm_compute; discriminate.
Defined.

(** ** Response time *)


(** C7.  Lines 67-79 take the earlier of the first comment's creation
    time and the first review's submission time when every review has a
    submission time.  On an item with a comment whose first review has
    none (a pending review) they raise [TypeError] at line 78 instead of
    taking the comment's time; without a comment such an item has no
    first response. *)
Theorem first_response_pending_review (pr_obj : PullRequest)
    (c : IssueComment) (cs : list IssueComment)
    (rs : list PendingReview.Review) :
  let pending := {| PendingReview.review_submitted_at := None |} in
  PendingReview.first_response (c :: cs) (pending :: rs) = Raise TypeError /\
  PendingReview.first_response [] (pending :: rs) = Ok None /\
  PendingReview.first_response (c :: cs) [] = Ok (Some (comment_created_at c)) /\
  PendingReview.first_response (get_issue_comments pr_obj)
    (map PendingReview.submitted (get_reviews pr_obj))
  = Ok (ResponseTime.first_response pr_obj) /\
  ResponseTime.first_response pr_obj =
    match get_issue_comments pr_obj, get_reviews pr_obj with
    | [], [] => None
    | c :: _, [] => Some (comment_created_at c)
    | [], r :: _ => Some (submitted_at r)
    | c :: _, r :: _ => Some (Z.min (comment_created_at c) (submitted_at r))
    end.
Proof.
  intros pending. repeat split.
  - unfold PendingReview.first_response, ResponseTime.first_response.
    destruct (get_issue_comments pr_obj) as [|c0 cs0];
      destruct (get_reviews pr_obj) as [|r rs0]; simpl; try reflexivity.
    now destruct (submitted_at r <? comment_created_at c0).
  - unfold ResponseTime.first_response.
    destruct (get_issue_comments pr_obj) as [|c0 cs0];
      destruct (get_reviews pr_obj) as [|r rs0]; try reflexivity.
    destruct (submitted_at r <? comment_created_at c0) eqn:E; f_equal; lia.
Qed.



(** ** Progress of the cycle-time loop *)

(** The four loops that count every item print one line per 50
    processed items. *)
Lemma count_all_loops_once_per_interval (cap : Z) (repo : Repository)
    (prs : list Issue) :
  once_per_interval
    (ResponseTime.out (fst (ResponseTime.collect cap repo prs)))
    (length (ResponseTime.sampled cap repo prs)) /\
  once_per_interval
    (IterationCount.out (fst (IterationCount.collect cap repo prs)))
    (length (IterationCount.sampled cap repo prs)) /\
  once_per_interval
    (ReviewCoverage.out (fst (ReviewCoverage.collect cap repo prs)))
    (length (ReviewCoverage.sampled cap repo prs)) /\
  once_per_interval
    (CommentDepth.out (fst (CommentDepth.collect cap repo prs)))
    (length (CommentDepth.sampled cap repo prs)).
Proof.
  repeat split; apply once_per_interval_loop; reflexivity.
Qed.


(** ** Median and mean *)

Lemma insert_perm (x : Q) (l : list Q) :
  Permutation (x :: l) (statistics.insert x l).
Proof.
  induction l as [|y t IH]; simpl; [reflexivity|].
  destruct (Qle_bool x y); [reflexivity|].
  rewrite perm_swap. now constructor.
Qed.

Lemma sorted_perm (data : list Q) : Permutation data (statistics.sorted data).
Proof.
  induction data as [|x l IH]; simpl; [constructor|].
  rewrite <- insert_perm. now constructor.
Qed.

Lemma insert_sorted (x : Q) (l : list Q) :
  StronglySorted Qle l -> StronglySorted Qle (statistics.insert x l).
Proof.
  induction 1 as [|y t Ht IH Hy]; simpl.
  - repeat constructor.
  - destruct (Qle_bool x y) eqn:E.
    + apply Qle_bool_iff in E.
      constructor; [now constructor|].
      constructor; [assumption|].
      eapply Forall_impl; [|exact Hy].
      intros z Hz. now apply Qle_trans with y.
    + assert (y <= x)%Q.
      { apply Qlt_le_weak, Qnot_le_lt. intros C.
        apply Qle_bool_iff in C. congruence. }
      constructor; [assumption|].
      eapply Permutation_Forall; [apply insert_perm|].
      now constructor.
Qed.

Lemma sorted_sorted (data : list Q) :
  StronglySorted Qle (statistics.sorted data).
Proof.
  induction data as [|x l IH]; simpl; [constructor|].
  now apply insert_sorted.
Qed.

Lemma count_if_perm (p : Q -> bool) (l l' : list Q) :
  Permutation l l' -> count_if p l = count_if p l'.
Proof.
  unfold count_if.
  induction 1 as [|x l l' _ IH|x y l|l l' l'' _ IH1 _ IH2]; simpl.
  - reflexivity.
  - destruct (p x); simpl; now rewrite IH.
  - destruct (p x), (p y); reflexivity.
  - now rewrite IH1.
Qed.

Lemma count_if_all (p : Q -> bool) (l : list Q) :
  Forall (fun x => p x = true) l -> count_if p l = length l.
Proof.
  unfold count_if. induction 1 as [|x l Hx _ IH]; simpl; [reflexivity|].
  rewrite Hx. simpl. now rewrite IH.
Qed.

Lemma count_if_cons (p : Q -> bool) (x : Q) (l : list Q) :
  count_if p (x :: l) = ((if p x then 1 else 0) + count_if p l)%nat.
Proof.
  unfold count_if. simpl. now destruct (p x).
Qed.

(** In a sorted sequence, at least [i + 1] elements lie at or below any
    bound of the element of index [i]. *)
Lemma count_le_sorted (s : list Q) :
  StronglySorted Qle s ->
  forall (i : nat) (m : Q),
    (i < length s)%nat -> (nth i s 0 <= m)%Q ->
    (i + 1 <= count_if (fun x => Qle_bool x m) s)%nat.
Proof.
  induction 1 as [|a t Ht IH Ha]; intros i m Hi Hm; simpl in Hi; [lia|].
  rewrite count_if_cons.
  destruct i as [|j]; simpl in Hm.
  - apply Qle_bool_iff in Hm. rewrite Hm. lia.
  - assert (Hj : (j < length t)%nat) by lia.
    assert (Qle_bool a m = true) as ->.
    { apply Qle_bool_iff. apply Qle_trans with (nth j t 0%Q); [|assumption].
      rewrite Forall_forall in Ha. apply Ha. now apply nth_In. }
    specialize (IH j m Hj Hm). lia.
Qed.

(** And at least [length s - i] elements lie at or above any value the
    element of index [i] bounds. *)
Lemma count_ge_sorted (s : list Q) :
  StronglySorted Qle s ->
  forall (i : nat) (m : Q),
    (i < length s)%nat -> (m <= nth i s 0)%Q ->
    (length s - i <= count_if (fun x => Qle_bool m x) s)%nat.
Proof.
  induction 1 as [|a t Ht IH Ha]; intros i m Hi Hm; simpl in Hi; [lia|].
  rewrite count_if_cons.
  destruct i as [|j]; simpl in Hm.
  - rewrite count_if_all.
    + apply Qle_bool_iff in Hm. rewrite Hm. simpl. lia.
    + eapply Forall_impl; [|exact Ha].
      intros z Hz. apply Qle_bool_iff. now apply Qle_trans with a.
  - assert (Hj : (j < length t)%nat) by lia.
    specialize (IH j m Hj Hm). simpl. lia.
Qed.

Lemma sorted_nth_le (s : list Q) :
  StronglySorted Qle s ->
  forall i j, (i <= j < length s)%nat -> (nth i s 0 <= nth j s 0)%Q.
Proof.
  induction 1 as [|a t Ht IH Ha]; intros i j Hij; simpl in Hij; [lia|].
  destruct i as [|i], j as [|j]; simpl; try lia.
  - apply Qle_refl.
  - rewrite Forall_forall in Ha. apply Ha, nth_In. lia.
  - apply IH. lia.
Qed.

Lemma Qmid_bounds (lo hi : Q) :
  (lo <= hi -> lo <= (lo + hi) / 2 /\ (lo + hi) / 2 <= hi)%Q.
Proof.
  intros H. split.
  - apply Qle_shift_div_l; [reflexivity | lra].
  - apply Qle_shift_div_r; [reflexivity | lra].
Qed.

(** The middle of a sorted sequence is a median of it. *)
Lemma middle_of_sorted_is_median (s : list Q) :
  s <> [] -> StronglySorted Qle s -> is_median (middle_of_sorted s) s.
Proof.
  intros Hne Hs.
  assert (Hn : (0 < length s)%nat) by (destruct s; [congruence | simpl; lia]).
  unfold middle_of_sorted, is_median.
  set (n := length s) in *.
  destruct (Nat.odd n) eqn:Hodd.
  - assert (Hi : (n / 2 < n)%nat) by (apply Nat.div_lt; lia).
    assert (E : n = (2 * (n / 2) + 1)%nat).
    { rewrite (Nat.div_mod_eq n 2) at 1. f_equal.
      rewrite <- Nat.bit0_mod, Nat.bit0_odd, Hodd. reflexivity. }
    pose proof (count_le_sorted s Hs (n / 2) _ Hi (Qle_refl _)).
    pose proof (count_ge_sorted s Hs (n / 2) _ Hi (Qle_refl _)).
    fold n in H0. split; lia.
  - assert (E : n = (2 * (n / 2))%nat).
    { rewrite (Nat.div_mod_eq n 2) at 1.
      rewrite <- Nat.bit0_mod, Nat.bit0_odd, Hodd. simpl. lia. }
    assert (Hi : (n / 2 - 1 < n)%nat) by lia.
    assert (Hj : (n / 2 < n)%nat) by lia.
    pose proof (sorted_nth_le s Hs (n / 2 - 1) (n / 2)) as Hle.
    fold n in Hle. specialize (Hle ltac:(lia)).
    set (lo := nth (n / 2 - 1) s 0%Q) in *.
    set (hi := nth (n / 2) s 0%Q) in *.
    destruct (Qmid_bounds lo hi Hle) as [L U].
    pose proof (count_le_sorted s Hs (n / 2 - 1) _ Hi L).
    pose proof (count_ge_sorted s Hs (n / 2) _ Hj U).
    fold n in H0. split; lia.
Qed.

Lemma odd_mod2 (n : nat) : (n mod 2 =? 1)%nat = Nat.odd n.
Proof.
  rewrite <- Nat.bit0_mod, Nat.bit0_odd. now destruct (Nat.odd n).
Qed.

Lemma length_sorted (data : list Q) :
  length (statistics.sorted data) = length data.
Proof.
  symmetry. apply Permutation_length, sorted_perm.
Qed.

Lemma median_middle (data : list Q) :
  data <> [] ->
  statistics.median data = Ok (middle_of_sorted (statistics.sorted data)).
Proof.
  intros Hne. unfold statistics.median, middle_of_sorted.
  rewrite odd_mod2, length_sorted.
  destruct data as [|x l]; [congruence|]. simpl length.
  change (S (length l) =? 0)%nat with false. cbv iota.
  now destruct (Nat.odd (S (length l))).
Qed.

Lemma median_empty : statistics.median [] = Raise StatisticsError.
Proof. reflexivity. Qed.

Lemma mean_empty : statistics.mean [] = Raise StatisticsError.
Proof. reflexivity. Qed.

Lemma mean_nonempty (data : list Q) :
  data <> [] ->
  statistics.mean data
  = Ok (statistics.sum data / inject_Z (Z.of_nat (length data)))%Q.
Proof.
  intros Hne. unfold statistics.mean.
  destruct data as [|x l]; [congruence | reflexivity].
Qed.

Lemma truthy_nonempty {A : Type} (xs : list A) : xs <> [] -> truthy xs = true.
Proof.
  destruct xs; [congruence | reflexivity].
Qed.

Lemma length_positive_Q (data : list Q) :
  data <> [] -> ~ (inject_Z (Z.of_nat (length data)) == 0)%Q.
Proof.
  intros Hne H. destruct data as [|x l]; [congruence|].
  unfold Qeq in H. simpl in H. lia.
Qed.

(** The guarded summaries on observations that are not empty. *)
Lemma cycle_summary_nonempty (cycle_times : list Z) :
  cycle_times <> [] ->
  let data := map inject_Z cycle_times in
  CycleTimeSummary.summary cycle_times
  = Ok (Some {| CycleTimeSummary.median_days :=
                  middle_of_sorted (statistics.sorted data);
                CycleTimeSummary.mean_days :=
                  (statistics.sum data / inject_Z (Z.of_nat (length data)))%Q;
                CycleTimeSummary.sample_size := length cycle_times |}).
Proof.
  intros Hne data. unfold CycleTimeSummary.summary.
  assert (Hd : data <> [])
    by (destruct cycle_times; [congruence | discriminate]).
  rewrite truthy_nonempty by assumption.
  fold data. now rewrite median_middle, mean_nonempty.
Qed.

Lemma iteration_summary_nonempty (iteration_counts : list Z) :
  iteration_counts <> [] ->
  let data := map inject_Z iteration_counts in
  IterationCount.summary iteration_counts
  = Ok (Some {| IterationCount.average_commits :=
                  (statistics.sum data / inject_Z (Z.of_nat (length data)))%Q;
                IterationCount.median_commits :=
                  middle_of_sorted (statistics.sorted data) |}).
Proof.
  intros Hne data. unfold IterationCount.summary.
  assert (Hd : data <> [])
    by (destruct iteration_counts; [congruence | discriminate]).
  rewrite truthy_nonempty by assumption.
  fold data. now rewrite median_middle, mean_nonempty.
Qed.

Lemma response_summary_nonempty (response_times : list Q) :
  response_times <> [] ->
  ResponseTime.summary response_times
  = Ok (Some {| ResponseTime.median_days :=
                  ResponseTime.to_days
                    (middle_of_sorted (statistics.sorted response_times));
                ResponseTime.mean_days :=
                  ResponseTime.to_days
                    (statistics.sum response_times
                     / inject_Z (Z.of_nat (length response_times)))%Q |}).
Proof.
  intros Hne. unfold ResponseTime.summary.
  rewrite truthy_nonempty by assumption.
  now rewrite median_middle, mean_nonempty.
Qed.

(** ** Empty samples *)

(** C3 (as the code has it).  The review-coverage and comment-depth
    summaries divide by the number of sampled items without a guard and
    raise [ZeroDivisionError] exactly when it is zero, which a run reaches
    exactly on an empty search result.  The cycle-time, response-time and
    iteration-count summaries are guarded by [if observations:]: with no
    observation they print nothing and raise nothing, and they never
    raise, although [median] and [mean] themselves raise on empty data. *)
Theorem empty_sample_outcomes (repo : Repository) (prs : list Issue) :
  (forall st,
     ReviewCoverage.review_coverage st = Raise ZeroDivisionError <->
     ReviewCoverage.total_sampled st = 0) /\
  (forall st,
     CommentDepth.avg_comments st = Raise ZeroDivisionError <->
     CommentDepth.total_prs st = 0) /\
  (ReviewCoverage.metric repo prs = Raise ZeroDivisionError <-> prs = []) /\
  (CommentDepth.metric repo prs = Raise ZeroDivisionError <-> prs = []) /\
  (forall cycle_times,
     (CycleTimeSummary.summary cycle_times = Ok None <-> cycle_times = []) /\
     exists r, CycleTimeSummary.summary cycle_times = Ok r) /\
  (forall response_times,
     (ResponseTime.summary response_times = Ok None <-> response_times = []) /\
     exists r, ResponseTime.summary response_times = Ok r) /\
  (forall iteration_counts,
     (IterationCount.summary iteration_counts = Ok None <->
      iteration_counts = []) /\
     exists r, IterationCount.summary iteration_counts = Ok r) /\
  statistics.median [] = Raise StatisticsError /\
  statistics.mean [] = Raise StatisticsError.
Proof.
  assert (RC : forall st,
             ReviewCoverage.review_coverage st = Raise ZeroDivisionError <->
             ReviewCoverage.total_sampled st = 0).
  { intros st. unfold ReviewCoverage.review_coverage, truediv.
    destruct (ReviewCoverage.total_sampled st =? 0) eqn:E; simpl.
    - split; [lia | reflexivity].
    - split; [discriminate | lia]. }
  assert (CD : forall st,
             CommentDepth.avg_comments st = Raise ZeroDivisionError <->
             CommentDepth.total_prs st = 0).
  { intros st. unfold CommentDepth.avg_comments, truediv.
    destruct (CommentDepth.total_prs st =? 0) eqn:E; simpl.
    - split; [lia | reflexivity].
    - split; [discriminate | lia]. }
  assert (F : forall l : list Issue,
             Z.of_nat (length (firstn (Z.to_nat 300) l)) = 0 <-> l = []).
  { intros l. rewrite length_firstn_cap by lia.
    destruct l; simpl; split; try reflexivity; try discriminate; lia. }
  assert (G : forall l : list Issue,
             Z.of_nat (length (firstn (Z.to_nat 200) l)) = 0 <-> l = []).
  { intros l. rewrite length_firstn_cap by lia.
    destruct l; simpl; split; try reflexivity; try discriminate; lia. }
  assert (CS : forall cycle_times,
             (CycleTimeSummary.summary cycle_times = Ok None <->
              cycle_times = []) /\
             exists r, CycleTimeSummary.summary cycle_times = Ok r).
  { intros [|x l]; [split; [easy | now eexists]|].
    rewrite cycle_summary_nonempty by discriminate.
    split; [split; discriminate | now eexists]. }
  assert (RS : forall response_times,
             (ResponseTime.summary response_times = Ok None <->
              response_times = []) /\
             exists r, ResponseTime.summary response_times = Ok r).
  { intros [|x l]; [split; [easy | now eexists]|].
    rewrite response_summary_nonempty by discriminate.
    split; [split; discriminate | now eexists]. }
  assert (IS : forall iteration_counts,
             (IterationCount.summary iteration_counts = Ok None <->
              iteration_counts = []) /\
             exists r, IterationCount.summary iteration_counts = Ok r).
  { intros [|x l]; [split; [easy | now eexists]|].
    rewrite iteration_summary_nonempty by discriminate.
    split; [split; discriminate | now eexists]. }
  split; [exact RC|]. split; [exact CD|].
  split; [|split; [|split; [exact CS|split; [exact RS|split; [exact IS|]]]]].
  3: split; [apply median_empty | apply mean_empty].
  - unfold ReviewCoverage.metric, ReviewCoverage.run. rewrite RC.
    destruct (review_coverage_collect_spec ReviewCoverage.max_sample repo prs)
      as [_ H]. simpl in H. rewrite H. apply F.
  - unfold CommentDepth.metric, CommentDepth.run. rewrite CD.
    destruct (comment_depth_collect_spec CommentDepth.max_sample repo prs)
      as [_ H]. simpl in H. rewrite H. apply G.
Qed.

(** C3 as stated fails on the cycle-time metric: a run that collects no
    observation (its only item is not merged) skips the summary and
    raises nothing. *)
Lemma empty_sample_outcomes_fails :
  CycleTime.cycle_times
    (CycleTime.run Samples.repo (Samples.search [4])) = [] /\
  ~ exists e,
      CycleTimeSummary.metric Samples.repo (Samples.search [4]) = Raise e.
Proof.
  split; [reflexivity|].
  intros [e H]. vm_compute in H. discriminate.
Qed.

(** * Further properties of the script *)

(** ** Review coverage *)

Lemma reviewers_fold (reviews : list PullRequestReview) :
  forall acc : set string,
    NoDup acc ->
    let add := fun (reviewers : set string) (review : PullRequestReview) =>
                 match user review with
                 | Some u => set_add string_dec (login u) reviewers
                 | None => reviewers
                 end in
    NoDup (fold_left add reviews acc) /\
    forall l,
      In l (fold_left add reviews acc) <->
      In l acc \/
      In l (flat_map (fun review => option_list (option_map login (user review)))
                     reviews).
Proof.
  induction reviews as [|r rs IH]; intros acc Hacc add; subst add; simpl.
  - split; [assumption|]. intros l. tauto.
  - destruct (user r) as [u|] eqn:Hu; simpl.
    + destruct (IH (set_add string_dec (login u) acc)) as [N M];
        [now apply set_add_nodup|].
      split; [exact N|]. intros l.
      rewrite (M l), set_add_iff. intuition congruence.
    + destruct (IH acc Hacc) as [N M].
      split; [exact N|]. intros l. now rewrite (M l).
Qed.

Lemma NoDup_two_distinct (l : list string) :
  NoDup l ->
  ((2 <= length l)%nat <-> exists a b, a <> b /\ In a l /\ In b l).
Proof.
  intros N. split.
  - destruct l as [|a [|b t]]; simpl; try lia. intros _.
    exists a, b. repeat split; [|now left | right; now left].
    inversion N as [|? ? Ha _]. subst. intros ->. apply Ha. now left.
  - intros (a & b & Hab & Ha & Hb).
    destruct l as [|x [|y t]]; simpl in *; try lia; try contradiction.
    intuition congruence.
Qed.

(** X1.  The reviewers of a pull request are the distinct logins of its
    reviews that have a user: a review without user adds nobody and a
    second review by the same user adds nothing.  So a pull request has 2
    or more reviewers exactly when two of its reviews come from users
    with different logins. *)
Theorem reviewers_distinct_logins (pr_obj : PullRequest) :
  NoDup (ReviewCoverage.reviewers pr_obj) /\
  (forall l,
     In l (ReviewCoverage.reviewers pr_obj) <->
     exists review u,
       In review (get_reviews pr_obj) /\ user review = Some u /\ login u = l) /\
  ((2 <= length (ReviewCoverage.reviewers pr_obj))%nat <->
   exists l1 l2,
     l1 <> l2 /\ In l1 (review_logins pr_obj) /\ In l2 (review_logins pr_obj)).
Proof.
  destruct (reviewers_fold (get_reviews pr_obj) (empty_set string))
    as [N M]; [constructor|].
  fold (ReviewCoverage.reviewers pr_obj) in N, M.
  fold (review_logins pr_obj) in M.
  assert (M' : forall l, In l (ReviewCoverage.reviewers pr_obj)
                         <-> In l (review_logins pr_obj)).
  { intros l. rewrite M. simpl. tauto. }
  split; [exact N|]. split.
  - intros l. rewrite M'. unfold review_logins. rewrite in_flat_map.
    split.
    + intros (review & Hin & Hl). exists review.
      destruct (user review) as [u|]; simpl in Hl; [|contradiction].
      exists u. intuition.
    + intros (review & u & Hin & Hu & Hl). exists review.
      split; [assumption|]. rewrite Hu. simpl. now left.
  - rewrite (NoDup_two_distinct _ N).
    split; intros (a & b & Hab & Ha & Hb); exists a, b;
      (split; [assumption|]); split; now apply M'.
Qed.

Lemma review_fold (repo : Repository) (l : list Issue) :
  forall st,
    ReviewCoverage.multiple_reviewer_count
      (fold_left (fun s pr => ReviewCoverage.body repo pr s) l st)
    = ReviewCoverage.multiple_reviewer_count st
      + Z.of_nat (length (filter (multiple_reviewers repo) l)).
Proof.
  induction l as [|pr l IH]; intros st; simpl; [lia|].
  rewrite IH. unfold multiple_reviewers at 2. simpl.
  destruct (Z.of_nat
              (length (ReviewCoverage.reviewers (get_pull repo (number pr))))
            >=? 2); simpl; lia.
Qed.

Lemma review_coverage_run (cap : Z) (repo : Repository) (prs : list Issue) :
  let r := fst (ReviewCoverage.collect cap repo prs) in
  let sample := firstn (Z.to_nat cap) prs in
  ReviewCoverage.sampled cap repo prs = sample /\
  ReviewCoverage.total_sampled r = Z.of_nat (length sample) /\
  ReviewCoverage.multiple_reviewer_count r
    = Z.of_nat (length (filter (multiple_reviewers repo) sample)).
Proof.
  unfold ReviewCoverage.collect, ReviewCoverage.sampled.
  assert (C : forall pr s,
             ReviewCoverage.total_sampled (ReviewCoverage.body repo pr s)
             = ReviewCoverage.total_sampled s + 1) by reflexivity.
  rewrite (processed_count_all _ _ _ C), (for_loop_count_all _ _ _ C).
  rewrite (counter_fold_left _ _ C), review_fold.
  simpl. rewrite Z.sub_0_r. repeat split.
Qed.

Lemma length_filter_le {A : Type} (p : A -> bool) (l : list A) :
  (length (filter p l) <= length l)%nat.
Proof.
  induction l as [|x l IH]; simpl; [lia|].
  destruct (p x); simpl; lia.
Qed.

(** X2.  The review-coverage loop looks at the first [cap] items of the
    search result; [total_sampled] ends at their number and
    [multiple_reviewer_count] at the number of those that have 2 or more
    reviewers, so it never exceeds [total_sampled]. *)
Theorem review_coverage_counts (cap : Z) (repo : Repository)
    (prs : list Issue) :
  ReviewCoverage.sampled cap repo prs = firstn (Z.to_nat cap) prs /\
  ReviewCoverage.total_sampled (fst (ReviewCoverage.collect cap repo prs))
    = Z.of_nat (length (ReviewCoverage.sampled cap repo prs)) /\
  ReviewCoverage.multiple_reviewer_count
    (fst (ReviewCoverage.collect cap repo prs))
    = Z.of_nat (length (filter (multiple_reviewers repo)
                               (ReviewCoverage.sampled cap repo prs))) /\
  0 <= ReviewCoverage.multiple_reviewer_count
         (fst (ReviewCoverage.collect cap repo prs))
    <= ReviewCoverage.total_sampled (fst (ReviewCoverage.collect cap repo prs)).
Proof.
  destruct (review_coverage_run cap repo prs) as (S1 & S2 & S3).
  cbv zeta in *. rewrite S1, S2, S3.
  pose proof (length_filter_le (multiple_reviewers repo)
                (firstn (Z.to_nat cap) prs)).
  repeat split; lia.
Qed.

(** X3.  On a search result that is not empty the review coverage is
    defined and lies between 0 and 100, with [K] of the [T] sampled pull
    requests having 2 or more reviewers: it is 0 when [K] is 0, 100 when
    [K] is [T], and positive when [K] is positive. *)
Theorem review_coverage_percentage (repo : Repository) (prs : list Issue) :
  prs <> [] ->
  let K := ReviewCoverage.multiple_reviewer_count
             (ReviewCoverage.run repo prs) in
  let T := ReviewCoverage.total_sampled (ReviewCoverage.run repo prs) in
  exists review_coverage,
    ReviewCoverage.metric repo prs = Ok review_coverage /\
    0 <= K <= T /\ 0 < T /\
    (0 <= review_coverage <= 100)%Q /\
    (K = 0 -> (review_coverage == 0)%Q) /\
    (K = T -> (review_coverage == 100)%Q) /\
    (0 < K -> (0 < review_coverage)%Q).
Proof.
  intros Hne K T.
  destruct (review_coverage_run ReviewCoverage.max_sample repo prs)
    as (_ & S2 & S3).
  pose proof (length_filter_le (multiple_reviewers repo)
                (firstn (Z.to_nat ReviewCoverage.max_sample) prs)) as Hle.
  fold (ReviewCoverage.run repo prs) in S2, S3. fold T in S2. fold K in S3.
  assert (HT : 0 < T).
  { rewrite S2. destruct prs; [congruence|]. simpl. lia. }
  assert (HK : 0 <= K <= T) by lia.
  assert (HM : ReviewCoverage.metric repo prs
               = Ok (inject_Z K / inject_Z T * 100)%Q).
  { unfold ReviewCoverage.metric, ReviewCoverage.review_coverage, truediv.
    fold T K. replace (T =? 0) with false by lia. reflexivity. }
  rewrite HM. clear HM S2 S3 Hle. clearbody K T.
  assert (HQ : (0 < inject_Z T)%Q) by (rewrite <- (Zlt_Qlt 0); exact HT).
  assert (HT0 : ~ (inject_Z T == 0)%Q)
    by (intros E; rewrite E in HQ; discriminate).
  exists (inject_Z K / inject_Z T * 100)%Q.
  split; [reflexivity|]. split; [exact HK|]. split; [exact HT|].
  split; [split|split; [|split]].
  - apply Qmult_le_0_compat; [|discriminate].
    apply Qle_shift_div_l; [assumption|].
    rewrite Qmult_0_l. rewrite <- (Zle_Qle 0). lia.
  - setoid_replace 100%Q with (1 * 100)%Q at 2 by reflexivity.
    apply Qmult_le_compat_r; [|discriminate].
    apply Qle_shift_div_r; [assumption|].
    rewrite Qmult_1_l. rewrite <- Zle_Qle. lia.
  - intros ->. field. exact HT0.
  - intros ->. field. exact HT0.
  - intros HK0.
    setoid_replace 0%Q with (0 * 100)%Q at 1 by reflexivity.
    apply Qmult_lt_compat_r; [reflexivity|].
    apply Qlt_shift_div_l; [assumption|].
    rewrite Qmult_0_l. now rewrite <- (Zlt_Qlt 0).
Qed.

Lemma review_coverage_percentage_witness :
  exists review_coverage,
    ReviewCoverage.metric ReviewSamples.repo (Samples.search [1; 2; 3; 4])
    = Ok review_coverage /\
    (review_coverage == 25)%Q.
Proof.
  destruct (review_coverage_percentage ReviewSamples.repo
              (Samples.search [1; 2; 3; 4])) as (c & H & _); [discriminate|].
  exists c. split; [exact H|].
  vm_compute in H. injection H as <-. reflexivity.
Defined.

(** ** Comment depth *)

Lemma comment_fold (repo : Repository) (l : list Issue) :
  forall st,
    CommentDepth.total_comments
      (fold_left (fun s pr => CommentDepth.body repo pr s) l st)
    = CommentDepth.total_comments st + sum_Z (map (comment_total repo) l).
Proof.
  induction l as [|pr l IH]; intros st; simpl; [lia|].
  rewrite IH. simpl. unfold comment_total. lia.
Qed.

Lemma comment_depth_run (cap : Z) (repo : Repository) (prs : list Issue) :
  let r := fst (CommentDepth.collect cap repo prs) in
  let sample := firstn (Z.to_nat cap) prs in
  CommentDepth.total_prs r = Z.of_nat (length sample) /\
  CommentDepth.total_comments r = sum_Z (map (comment_total repo) sample).
Proof.
  unfold CommentDepth.collect.
  assert (C : forall pr s, CommentDepth.total_prs (CommentDepth.body repo pr s)
                           = CommentDepth.total_prs s + 1) by reflexivity.
  rewrite (for_loop_count_all _ _ _ C).
  rewrite (counter_fold_left _ _ C), comment_fold.
  simpl. rewrite Z.sub_0_r. split; reflexivity.
Qed.

Lemma sum_Z_within (l : list Z) (lo hi : Z) :
  Forall (fun x => lo <= x <= hi) l ->
  lo * Z.of_nat (length l) <= sum_Z l <= hi * Z.of_nat (length l).
Proof.
  induction 1 as [|x l Hx _ IH]; simpl sum_Z; simpl length; [lia|].
  rewrite Nat2Z.inj_succ. nia.
Qed.

(** X4.  On a search result that is not empty the comment-depth metric
    is defined; [total_prs] is the number of the first 200 items of the
    search result and [total_comments] the total of their issue comments
    and review comments.  The reported average lies between any two
    integers that bound the comments of every sampled item. *)
Theorem comment_depth_average (repo : Repository) (prs : list Issue) :
  prs <> [] ->
  let sample := firstn (Z.to_nat CommentDepth.max_sample) prs in
  exists avg_comments,
    CommentDepth.metric repo prs = Ok avg_comments /\
    CommentDepth.total_prs (CommentDepth.run repo prs)
      = Z.of_nat (length sample) /\
    CommentDepth.total_comments (CommentDepth.run repo prs)
      = sum_Z (map (comment_total repo) sample) /\
    forall lo hi : Z,
      Forall (fun pr => lo <= comment_total repo pr <= hi) sample ->
      (inject_Z lo <= avg_comments <= inject_Z hi)%Q.
Proof.
  intros Hne sample.
  destruct (comment_depth_run CommentDepth.max_sample repo prs) as [S1 S2].
  fold (CommentDepth.run repo prs) in S1, S2. fold sample in S1, S2.
  assert (HT : 0 < Z.of_nat (length sample)).
  { unfold sample. destruct prs; [congruence|]. simpl. lia. }
  eexists. split; [|split; [exact S1|split; [exact S2|]]].
  - unfold CommentDepth.metric, CommentDepth.avg_comments, truediv.
    rewrite S1, S2.
    replace (Z.of_nat (length sample) =? 0) with false by lia. reflexivity.
  - intros lo hi H.
    assert (B : Forall (fun x => lo <= x <= hi)
                       (map (comment_total repo) sample))
      by (now apply Forall_map).
    apply sum_Z_within in B. rewrite length_map in B.
    assert (HQ : (0 < inject_Z (Z.of_nat (length sample)))%Q)
      by (now rewrite <- (Zlt_Qlt 0)).
    split.
    + apply Qle_shift_div_l; [assumption|].
      rewrite <- inject_Z_mult, <- Zle_Qle. lia.
    + apply Qle_shift_div_r; [assumption|].
      rewrite <- inject_Z_mult, <- Zle_Qle. lia.
Qed.

Lemma comment_depth_average_witness :
  exists avg_comments,
    CommentDepth.metric ReviewSamples.repo (Samples.search [1; 2; 3])
    = Ok avg_comments /\
    (2 <= avg_comments <= 4)%Q.
Proof.
  destruct (comment_depth_average ReviewSamples.repo (Samples.search [1; 2; 3]))
    as (a & H & _ & _ & B); [discriminate|].
  exists a. split; [exact H|].
  apply (B 2 4). repeat constructor; vm_compute; discriminate.
Defined.

(** ** Iteration count *)

(** X5.  The iteration-count loop collects the commit counts of the first
    [cap] items of the search result, in the order of the search result,
    and the summary is computed from the first 300. *)
Theorem iteration_count_sample (cap : Z) (repo : Repository)
    (prs : list Issue) :
  let commits_of := fun pr => commits (get_pull repo (number pr)) in
  IterationCount.sampled cap repo prs = firstn (Z.to_nat cap) prs /\
  IterationCount.iteration_counts (fst (IterationCount.collect cap repo prs))
    = map commits_of (IterationCount.sampled cap repo prs) /\
  IterationCount.metric repo prs
    = IterationCount.summary
        (map commits_of (firstn (Z.to_nat IterationCount.max_sample) prs)).
Proof.
  intros commits_of.
  destruct (iteration_collect_spec cap repo prs) as (S1 & S2 & _).
  destruct (iteration_collect_spec IterationCount.max_sample repo prs)
    as (_ & S3 & _).
  cbv zeta in *. split; [exact S1|]. split.
  - now rewrite S1, S2.
  - unfold IterationCount.metric, IterationCount.run. now rewrite S3.
Qed.

(** ** Remote fetches *)

Section FetchBound.

Context {S : Type}.
Variable counter : S -> Z.
Variable max_sample : Z.
Variable body : Issue -> S -> S.
Hypothesis body_counts : forall pr s, counter (body pr s) = counter s + 1.

(** A loop that counts every item processes at most [max_sample] items
    and pulls at most one more. *)
Lemma count_all_fetch_bound prs st p :
  counter st = 0 -> 0 <= max_sample ->
  Z.of_nat (length (processed counter max_sample body prs st)) <= max_sample /\
  Z.of_nat (snd (for_loop counter max_sample body prs st p))
    <= Z.of_nat p + max_sample + 1.
Proof.
  intros H0 Hcap.
  destruct (for_loop_pulled counter max_sample body prs st p) as (P1 & _ & _).
  cbv zeta in P1.
  assert (L : Z.of_nat (length (processed counter max_sample body prs st))
              <= max_sample).
  { rewrite (processed_count_all _ _ _ body_counts), H0, Z.sub_0_r.
    rewrite length_firstn. lia. }
  split; [exact L | lia].
Qed.

End FetchBound.

(** X6.  With a cap that is not negative, the response-time,
    iteration-count, review-coverage and comment-depth loops fetch the
    detail record of at most [cap] items, and pull at most [cap + 1] items
    from the search result. *)
Theorem fetches_bounded_by_cap (cap : Z) (repo : Repository)
    (prs : list Issue) :
  0 <= cap ->
  (Z.of_nat (length (ResponseTime.sampled cap repo prs)) <= cap /\
   Z.of_nat (snd (ResponseTime.collect cap repo prs)) <= cap + 1) /\
  (Z.of_nat (length (IterationCount.sampled cap repo prs)) <= cap /\
   Z.of_nat (snd (IterationCount.collect cap repo prs)) <= cap + 1) /\
  (Z.of_nat (length (ReviewCoverage.sampled cap repo prs)) <= cap /\
   Z.of_nat (snd (ReviewCoverage.collect cap repo prs)) <= cap + 1) /\
  (Z.of_nat (length (CommentDepth.sampled cap repo prs)) <= cap /\
   Z.of_nat (snd (CommentDepth.collect cap repo prs)) <= cap + 1).
Proof.
  intros Hcap.
  split; [|split; [|split]];
    apply count_all_fetch_bound; (reflexivity || assumption).
Qed.

Lemma fetches_bounded_by_cap_witness :
  Z.of_nat (length (ResponseTime.sampled 2 Samples.repo
                      (Samples.search [5; 6; 7; 4]))) <= 2 /\
  Z.of_nat (snd (ResponseTime.collect 2 Samples.repo
                   (Samples.search [5; 6; 7; 4]))) <= 2 + 1.
Proof.
  apply (fetches_bounded_by_cap 2 Samples.repo (Samples.search [5; 6; 7; 4])).
  lia.
Defined.

(** ** The cycle-time loop on items that are not merged *)

Lemma cycle_unmerged_loop (cap : Z) (repo : Repository) (prs : list Issue) :
  0 < cap ->
  Forall (fun pr => merged_at (get_pull repo (number pr)) = None) prs ->
  forall st p,
    CycleTime.count st = 0 ->
    let r := for_loop CycleTime.count cap (CycleTime.body repo) prs st p in
    processed CycleTime.count cap (CycleTime.body repo) prs st = prs /\
    CycleTime.cycle_times (fst r) = CycleTime.cycle_times st /\
    CycleTime.count (fst r) = 0 /\
    CycleTime.out (fst r)
      = CycleTime.out st ++ repeat (progress_line 0) (length prs) /\
    snd r = (p + length prs)%nat.
Proof.
  intros Hcap H. induction H as [|pr rest Hpr _ IH]; intros st p H0; simpl.
  - rewrite app_nil_r. repeat split; lia.
  - replace (CycleTime.count st >=? cap) with false by lia.
    assert (B : CycleTime.body repo pr st
                = {| CycleTime.cycle_times := CycleTime.cycle_times st;
                     CycleTime.count := CycleTime.count st;
                     CycleTime.out := CycleTime.out st
                                      ++ [progress_line (CycleTime.count st)] |}).
    { unfold CycleTime.body. rewrite Hpr, H0. reflexivity. }
    destruct (IH (CycleTime.body repo pr st) (Datatypes.S p)) as (I1 & I2 & I3 & I4 & I5).
    { rewrite B. exact H0. }
    cbv zeta in *. rewrite I1, I2, I3, I4, I5, B. simpl. rewrite H0.
    rewrite <- app_assoc. simpl. repeat split; lia.
Qed.

(** X7.  The cap does not bound the cycle-time loop on items that are not
    merged: with a positive cap and a search result without merged item,
    the loop fetches every item, collects nothing, prints the line for 0
    processed pull requests once per item, and the summary is skipped. *)
Theorem cycle_time_unmerged (cap : Z) (repo : Repository) (prs : list Issue) :
  0 < cap ->
  Forall (fun pr => merged_at (get_pull repo (number pr)) = None) prs ->
  CycleTime.sampled cap repo prs = prs /\
  CycleTime.cycle_times (fst (CycleTime.collect cap repo prs)) = [] /\
  CycleTime.count (fst (CycleTime.collect cap repo prs)) = 0 /\
  CycleTime.out (fst (CycleTime.collect cap repo prs))
    = repeat (progress_line 0) (length prs) /\
  snd (CycleTime.collect cap repo prs) = length prs /\
  CycleTimeSummary.metric repo prs = Ok None.
Proof.
  intros Hcap H.
  destruct (cycle_unmerged_loop cap repo prs Hcap H CycleTime.init 0 eq_refl)
    as (I1 & I2 & I3 & I4 & I5).
  destruct (cycle_unmerged_loop CycleTime.max_sample repo prs eq_refl H
              CycleTime.init 0 eq_refl) as (_ & J & _).
  cbv zeta in *.
  split; [exact I1|]. split; [exact I2|]. split; [exact I3|].
  split; [exact I4|]. split; [exact I5|].
  unfold CycleTimeSummary.metric, CycleTime.run, CycleTime.collect.
  rewrite J. reflexivity.
Qed.

Lemma cycle_time_unmerged_witness :
  CycleTime.sampled 1 Samples.repo (Samples.search [4; 5; 6])
    = Samples.search [4; 5; 6] /\
  CycleTime.cycle_times
    (fst (CycleTime.collect 1 Samples.repo (Samples.search [4; 5; 6]))) = [].
Proof.
  destruct (cycle_time_unmerged 1 Samples.repo (Samples.search [4; 5; 6]))
    as (H1 & H2 & _).
  - lia.
  - repeat constructor.
  - split; [exact H1 | exact H2].
Defined.

(** ** How many progress lines *)




(** ** Raising the cap *)

Lemma firstn_prefix {A : Type} (n m : nat) (l : list A) :
  (n <= m)%nat -> exists rest, firstn m l = firstn n l ++ rest.
Proof.
  intros H. exists (skipn n (firstn m l)).
  rewrite <- (firstn_skipn n (firstn m l)) at 1.
  now rewrite firstn_firstn, Nat.min_l.
Qed.

(** X9.  Raising the cap only adds observations at the end: the
    observations collected under a cap are an initial segment of those
    collected under any larger cap, in the cycle-time, the response-time
    and the iteration-count loop. *)
Theorem larger_cap_extends_sample (cap cap' : Z) (repo : Repository)
    (prs : list Issue) :
  cap <= cap' ->
  (exists rest,
     CycleTime.cycle_times (fst (CycleTime.collect cap' repo prs))
     = CycleTime.cycle_times (fst (CycleTime.collect cap repo prs)) ++ rest) /\
  (exists rest,
     ResponseTime.response_times (fst (ResponseTime.collect cap' repo prs))
     = ResponseTime.response_times (fst (ResponseTime.collect cap repo prs))
       ++ rest) /\
  (exists rest,
     IterationCount.iteration_counts
       (fst (IterationCount.collect cap' repo prs))
     = IterationCount.iteration_counts
         (fst (IterationCount.collect cap repo prs)) ++ rest).
Proof.
  intros Hle.
  assert (Hnat : (Z.to_nat cap <= Z.to_nat cap')%nat) by lia.
  split; [|split].
  - destruct (cycle_collect_spec cap repo prs) as [H _].
    destruct (cycle_collect_spec cap' repo prs) as [H' _].
    cbv zeta in *. rewrite H, H'. now apply firstn_prefix.
  - destruct (response_collect_spec cap repo prs) as (_ & H & _).
    destruct (response_collect_spec cap' repo prs) as (_ & H' & _).
    cbv zeta in *. rewrite H, H'.
    destruct (firstn_prefix _ _ prs Hnat) as [rest ->].
    exists (extract_all ResponseTime.response_time repo rest).
    unfold extract_all. now rewrite flat_map_app.
  - destruct (iteration_collect_spec cap repo prs) as (_ & H & _).
    destruct (iteration_collect_spec cap' repo prs) as (_ & H' & _).
    cbv zeta in *. rewrite H, H'.
    destruct (firstn_prefix _ _ prs Hnat) as [rest ->].
    eexists. now rewrite map_app.
Qed.

Lemma larger_cap_extends_sample_witness :
  exists rest,
    CycleTime.cycle_times
      (fst (CycleTime.collect 3 Samples.repo (Samples.search [1; 4; 2; 3])))
    = CycleTime.cycle_times
        (fst (CycleTime.collect 1 Samples.repo (Samples.search [1; 4; 2; 3])))
      ++ rest.
Proof.
  apply (larger_cap_extends_sample 1 3 Samples.repo (Samples.search [1; 4; 2; 3])).
  lia.
Defined.

(** ** Median and mean between the extremes *)

Lemma even_length_halves (n : nat) :
  Nat.odd n = false -> n = (2 * (n / 2))%nat.
Proof.
  intros Hodd. rewrite (Nat.div_mod_eq n 2) at 1.
  rewrite <- Nat.bit0_mod, Nat.bit0_odd, Hodd. simpl. lia.
Qed.

Lemma nonempty_length {A : Type} (l : list A) : l <> [] -> (0 < length l)%nat.
Proof.
  destruct l; [congruence | simpl; lia].
Qed.

Lemma Qmid_within (lo hi a b : Q) :
  (lo <= a <= hi -> lo <= b <= hi -> lo <= (a + b) / 2 <= hi)%Q.
Proof.
  intros [La Ha] [Lb Hb]. split.
  - apply Qle_shift_div_l; [reflexivity | lra].
  - apply Qle_shift_div_r; [reflexivity | lra].
Qed.

Lemma middle_of_sorted_within (s : list Q) (lo hi : Q) :
  s <> [] ->
  Forall (fun x => lo <= x <= hi)%Q s ->
  (lo <= middle_of_sorted s <= hi)%Q.
Proof.
  intros Hne H. pose proof (nonempty_length s Hne) as Hn.
  rewrite Forall_forall in H. unfold middle_of_sorted.
  destruct (Nat.odd (length s)) eqn:Hodd.
  - apply H, nth_In, Nat.div_lt; lia.
  - pose proof (even_length_halves _ Hodd) as E.
    apply Qmid_within; apply H, nth_In; lia.
Qed.

Lemma inject_Z_length_cons {A : Type} (x : A) (l : list A) :
  (inject_Z (Z.of_nat (length (x :: l)))
   == inject_Z (Z.of_nat (length l)) + 1)%Q.
Proof.
  simpl length. rewrite Nat2Z.inj_succ. unfold Z.succ.
  now rewrite inject_Z_plus.
Qed.

Lemma sum_within (data : list Q) (lo hi : Q) :
  Forall (fun x => lo <= x <= hi)%Q data ->
  (lo * inject_Z (Z.of_nat (length data)) <= statistics.sum data
   <= hi * inject_Z (Z.of_nat (length data)))%Q.
Proof.
  induction 1 as [|x l [Lx Hx] _ [IHl IHh]].
  - change (inject_Z (Z.of_nat (@length Q []))) with 0%Q.
    change (statistics.sum []) with 0%Q. split; lra.
  - rewrite inject_Z_length_cons.
    change (statistics.sum (x :: l)) with (x + statistics.sum l)%Q.
    split; lra.
Qed.

Lemma length_positive_Q_lt (data : list Q) :
  data <> [] -> (0 < inject_Z (Z.of_nat (length data)))%Q.
Proof.
  intros Hne. rewrite <- (Zlt_Qlt 0).
  pose proof (nonempty_length data Hne). lia.
Qed.

(** X10.  The median and the mean of observations that are not empty lie
    between any lower and upper bound of the observations, so between the
    smallest and the largest of them. *)
Theorem statistics_within_bounds (data : list Q) (lo hi : Q) :
  data <> [] ->
  Forall (fun x => lo <= x <= hi)%Q data ->
  exists m a,
    statistics.median data = Ok m /\
    statistics.mean data = Ok a /\
    (lo <= m <= hi)%Q /\
    (lo <= a <= hi)%Q.
Proof.
  intros Hne H.
  exists (middle_of_sorted (statistics.sorted data)).
  exists (statistics.sum data / inject_Z (Z.of_nat (length data)))%Q.
  split; [now apply median_middle|].
  split; [now apply mean_nonempty|].
  split.
  - apply middle_of_sorted_within.
    + intros E. apply Hne, Permutation_nil. rewrite <- E.
      symmetry. apply sorted_perm.
    + eapply Permutation_Forall; [apply sorted_perm | exact H].
  - destruct (sum_within data lo hi H) as [L U].
    pose proof (length_positive_Q_lt data Hne) as Hn.
    split.
    + now apply Qle_shift_div_l.
    + now apply Qle_shift_div_r.
Qed.

Lemma statistics_within_bounds_witness :
  exists m a,
    statistics.median [5; 1; 8; 3]%Q = Ok m /\
    statistics.mean [5; 1; 8; 3]%Q = Ok a /\
    (1 <= m <= 8)%Q /\ (1 <= a <= 8)%Q.
Proof.
  apply (statistics_within_bounds [5; 1; 8; 3]%Q 1 8).
  - discriminate.
  - repeat constructor; discriminate.
Defined.

(** ** Median and mean do not depend on the order *)

Lemma count_if_none (p : Q -> bool) (l : list Q) :
  Forall (fun x => p x = false) l -> count_if p l = 0%nat.
Proof.
  unfold count_if. induction 1 as [|x l Hx _ IH]; simpl; [reflexivity|].
  now rewrite Hx.
Qed.

(** In a sorted sequence, at most [i] elements lie at or below a value
    that is below the element of index [i]. *)
Lemma count_le_sorted_upper (s : list Q) :
  StronglySorted Qle s ->
  forall (i : nat) (m : Q),
    (i < length s)%nat -> (m < nth i s 0)%Q ->
    (count_if (fun x => Qle_bool x m) s <= i)%nat.
Proof.
  induction 1 as [|a t Ht IH Ha]; intros i m Hi Hm; simpl in Hi; [lia|].
  destruct i as [|j]; simpl in Hm.
  - rewrite count_if_none; [lia|].
    constructor.
    + destruct (Qle_bool a m) eqn:E; [|reflexivity].
      apply Qle_bool_iff in E. exfalso. apply (Qlt_irrefl m).
      now apply Qlt_le_trans with a.
    + eapply Forall_impl; [|exact Ha].
      intros z Hz. destruct (Qle_bool z m) eqn:E; [|reflexivity].
      apply Qle_bool_iff in E. exfalso. apply (Qlt_irrefl m).
      apply Qlt_le_trans with a; [assumption|].
      now apply Qle_trans with z.
  - rewrite count_if_cons.
    assert (Hj : (j < length t)%nat) by lia.
    specialize (IH j m Hj Hm).
    destruct (Qle_bool a m); lia.
Qed.

Lemma sorted_nth_le_perm (s s' : list Q) (i : nat) :
  StronglySorted Qle s -> StronglySorted Qle s' -> Permutation s s' ->
  (i < length s)%nat ->
  (nth i s' 0 <= nth i s 0)%Q.
Proof.
  intros Hs Hs' Hp Hi.
  apply Qnot_lt_le. intros Hlt.
  assert (Hi' : (i < length s')%nat)
    by (now rewrite <- (Permutation_length Hp)).
  pose proof (count_le_sorted s Hs i (nth i s 0%Q) Hi (Qle_refl _)) as L.
  pose proof (count_le_sorted_upper s' Hs' i (nth i s 0%Q) Hi' Hlt) as U.
  rewrite (count_if_perm _ _ _ Hp) in L. lia.
Qed.

(** Two sorted arrangements of the same data agree position by
    position. *)
Lemma sorted_nth_unique (s s' : list Q) (i : nat) :
  StronglySorted Qle s -> StronglySorted Qle s' -> Permutation s s' ->
  (i < length s)%nat ->
  (nth i s 0 == nth i s' 0)%Q.
Proof.
  intros Hs Hs' Hp Hi. apply Qle_antisym.
  - apply sorted_nth_le_perm; try assumption.
    + now symmetry.
    + now rewrite <- (Permutation_length Hp).
  - now apply sorted_nth_le_perm.
Qed.

Lemma middle_of_sorted_unique (s s' : list Q) :
  s <> [] ->
  StronglySorted Qle s -> StronglySorted Qle s' -> Permutation s s' ->
  (middle_of_sorted s == middle_of_sorted s')%Q.
Proof.
  intros Hne Hs Hs' Hp. pose proof (nonempty_length s Hne) as Hn.
  unfold middle_of_sorted. rewrite <- (Permutation_length Hp).
  destruct (Nat.odd (length s)) eqn:Hodd.
  - apply sorted_nth_unique; try assumption. apply Nat.div_lt; lia.
  - pose proof (even_length_halves _ Hodd) as E.
    rewrite (sorted_nth_unique s s' (length s / 2 - 1)) by (assumption || lia).
    rewrite (sorted_nth_unique s s' (length s / 2)) by (assumption || lia).
    reflexivity.
Qed.

Lemma sum_perm (l l' : list Q) :
  Permutation l l' -> (statistics.sum l == statistics.sum l')%Q.
Proof.
  induction 1 as [|x l l' _ IH|x y l|l l' l'' _ IH1 _ IH2]; simpl.
  - reflexivity.
  - now rewrite IH.
  - ring.
  - now rewrite IH1.
Qed.

(** X11.  The median and the mean do not depend on the order in which
    the observations were collected: on two arrangements of the same
    observations they return equal values. *)
Theorem statistics_order_independent (data data' : list Q) :
  data <> [] ->
  Permutation data data' ->
  exists m m' a a',
    statistics.median data = Ok m /\
    statistics.median data' = Ok m' /\
    (m == m')%Q /\
    statistics.mean data = Ok a /\
    statistics.mean data' = Ok a' /\
    (a == a')%Q.
Proof.
  intros Hne Hp.
  assert (Hne' : data' <> []).
  { intros E. apply Hne, Permutation_nil. rewrite <- E. now symmetry. }
  do 4 eexists.
  split; [now apply median_middle|].
  split; [now apply median_middle|].
  split; [|split; [now apply mean_nonempty|split; [now apply mean_nonempty|]]].
  - apply middle_of_sorted_unique; try apply sorted_sorted.
    + intros E. apply Hne, Permutation_nil. rewrite <- E.
      symmetry. apply sorted_perm.
    + rewrite <- (sorted_perm data), <- (sorted_perm data'). exact Hp.
  - rewrite (sum_perm _ _ Hp), (Permutation_length Hp). reflexivity.
Qed.

Lemma statistics_order_independent_witness :
  exists m m',
    statistics.median [5; 1; 8; 3]%Q = Ok m /\
    statistics.median [8; 3; 1; 5]%Q = Ok m' /\
    (m == m')%Q.
Proof.
  destruct (statistics_order_independent [5; 1; 8; 3]%Q [8; 3; 1; 5]%Q)
    as (m & m' & a & a' & H1 & H2 & H3 & _).
  - discriminate.
  - apply perm_trans with [1; 5; 8; 3]%Q; [apply perm_swap|].
    apply perm_trans with [1; 8; 5; 3]%Q; [apply perm_skip, perm_swap|].
    apply perm_trans with [8; 1; 5; 3]%Q; [apply perm_swap|].
    apply perm_skip.
    apply perm_trans with [1; 3; 5]%Q; [apply perm_skip, perm_swap|].
    apply perm_swap.
  - exists m, m'. repeat split; assumption.
Defined.

(** ** Response times are positive *)

Lemma response_time_positive (pr_obj : PullRequest) (h : Q) :
  ResponseTime.response_time pr_obj = Some h -> (0 < h)%Q.
Proof.
  unfold ResponseTime.response_time.
  destruct (ResponseTime.first_response pr_obj) as [t|]; [|discriminate].
  destruct (t >? created_at pr_obj) eqn:E; [|discriminate].
  intros H. injection H as <-.
  rewrite total_seconds_datetime_sub.
  apply Qlt_shift_div_l; [reflexivity|]. rewrite Qmult_0_l.
  apply Qlt_shift_div_l; [reflexivity|]. rewrite Qmult_0_l.
  rewrite <- (Zlt_Qlt 0). lia.
Qed.

Lemma extract_all_Forall {A : Type} (f : PullRequest -> option A)
    (P : A -> Prop) (repo : Repository) (prs : list Issue) :
  (forall pr_obj a, f pr_obj = Some a -> P a) ->
  Forall P (extract_all f repo prs).
Proof.
  intros H. unfold extract_all.
  induction prs as [|pr rest IH]; simpl; [constructor|].
  apply Forall_app. split; [|exact IH].
  destruct (f (get_pull repo (number pr))) as [a|] eqn:E; simpl.
  - constructor; [now apply (H _ _ E) | constructor].
  - constructor.
Qed.

Lemma sorted_nonempty (data : list Q) :
  data <> [] -> statistics.sorted data <> [].
Proof.
  intros Hne E. apply Hne, Permutation_nil. rewrite <- E.
  symmetry. apply sorted_perm.
Qed.

Lemma middle_of_sorted_positive (s : list Q) :
  s <> [] -> Forall (Qlt 0) s -> (0 < middle_of_sorted s)%Q.
Proof.
  intros Hne H. pose proof (nonempty_length s Hne) as Hn.
  rewrite Forall_forall in H. unfold middle_of_sorted.
  destruct (Nat.odd (length s)) eqn:Hodd.
  - apply H, nth_In, Nat.div_lt; lia.
  - pose proof (even_length_halves _ Hodd) as E.
    assert (A : (0 < nth (length s / 2 - 1) s 0)%Q) by (apply H, nth_In; lia).
    assert (B : (0 < nth (length s / 2) s 0)%Q) by (apply H, nth_In; lia).
    apply Qlt_shift_div_l; [reflexivity | lra].
Qed.

Lemma sum_positive (data : list Q) :
  data <> [] -> Forall (Qlt 0) data -> (0 < statistics.sum data)%Q.
Proof.
  intros Hne H.
  assert (G : (0 <= statistics.sum data)%Q /\
              (data <> [] -> 0 < statistics.sum data)%Q).
  { clear Hne. induction H as [|x l Hx _ [IH0 IH1]].
    - split; [apply Qle_refl | congruence].
    - change (statistics.sum (x :: l)) with (x + statistics.sum l)%Q.
      split; [lra | intros _; lra]. }
  now apply G.
Qed.

(** X12.  Every response time the loop records is positive, and so are
    the median and the mean that the summary reports in days. *)
Theorem response_times_positive (cap : Z) (repo : Repository)
    (prs : list Issue) :
  Forall (Qlt 0)
         (ResponseTime.response_times (fst (ResponseTime.collect cap repo prs))) /\
  forall report,
    ResponseTime.metric repo prs = Ok (Some report) ->
    (0 < ResponseTime.median_days report)%Q /\
    (0 < ResponseTime.mean_days report)%Q.
Proof.
  assert (P : forall c,
             Forall (Qlt 0)
                    (ResponseTime.response_times
                       (fst (ResponseTime.collect c repo prs)))).
  { intros c. destruct (response_collect_spec c repo prs) as (_ & H & _).
    cbv zeta in H. rewrite H.
    apply extract_all_Forall. exact response_time_positive. }
  split; [apply P|].
  intros report. unfold ResponseTime.metric, ResponseTime.run.
  specialize (P ResponseTime.max_sample).
  set (data := ResponseTime.response_times
                 (fst (ResponseTime.collect ResponseTime.max_sample repo prs)))
    in *.
  assert (D : data = [] \/ data <> [])
    by (destruct data; [now left | right; discriminate]).
  destruct D as [-> | Hne]; [discriminate|].
  rewrite response_summary_nonempty by assumption.
  intros H. injection H as <-.
  cbn [ResponseTime.median_days ResponseTime.mean_days].
  unfold ResponseTime.to_days. split.
  - apply Qlt_shift_div_l; [reflexivity|]. rewrite Qmult_0_l.
    apply middle_of_sorted_positive.
    + now apply sorted_nonempty.
    + exact (Permutation_Forall (sorted_perm data) P).
  - apply Qlt_shift_div_l; [reflexivity|]. rewrite Qmult_0_l.
    apply Qlt_shift_div_l; [now apply length_positive_Q_lt|].
    rewrite Qmult_0_l. now apply sum_positive.
Qed.

Lemma response_times_positive_witness :
  exists report,
    ResponseTime.metric Samples.repo (Samples.search [5; 6; 7; 4])
    = Ok (Some report) /\
    (0 < ResponseTime.median_days report)%Q.
Proof.
  destruct (response_times_positive ResponseTime.max_sample Samples.repo
              (Samples.search [5; 6; 7; 4])) as [_ H].
  eexists. split; [reflexivity|].
  eapply H. reflexivity.
Defined.

(** ** Merge times before the creation time *)

(** X13.  The cycle time of a merged item is the floor of the duration in
    days, whatever the order of the two timestamps: it is negative
    exactly when the merge time precedes the creation time, and then at
    most -1, also for a difference of less than a day. *)
Theorem cycle_time_floor (repo : Repository) (pr : Issue)
    (st : CycleTime.State) (merged : datetime) :
  let pr_obj := get_pull repo (number pr) in
  merged_at pr_obj = Some merged ->
  let duration := merged - created_at pr_obj in
  exists d,
    CycleTime.cycle_times (CycleTime.body repo pr st)
      = CycleTime.cycle_times st ++ [d] /\
    d * us_per_day <= duration < (d + 1) * us_per_day /\
    (d < 0 <-> merged < created_at pr_obj) /\
    (d <= -1 <-> merged < created_at pr_obj).
Proof.
  intros pr_obj Hm duration.
  exists (days (datetime_sub merged (created_at pr_obj))).
  destruct (cycle_body_fields repo pr st) as [B _]. cbv zeta in B.
  fold pr_obj in B. unfold cycle_time_of in B. rewrite Hm in B.
  split; [exact B|].
  pose proof (days_datetime_sub merged (created_at pr_obj)) as D.
  fold duration in D. split; [exact D|].
  unfold duration, us_per_day, us_per_second in *.
  split; split; lia.
Qed.

Lemma cycle_time_floor_witness :
  exists d,
    CycleTime.cycle_times
      (CycleTime.body
         {| get_pull := fun _ =>
              Samples.pull (2 * us_per_hour) (Some us_per_hour) [] [] |}
         {| number := 1 |} CycleTime.init) = [d] /\
    d <= -1.
Proof.
  destruct (cycle_time_floor
              {| get_pull := fun _ =>
                   Samples.pull (2 * us_per_hour) (Some us_per_hour) [] [] |}
              {| number := 1 |} CycleTime.init us_per_hour)
    as (d & H1 & _ & _ & H2); [reflexivity|].
  exists d. split; [exact H1|].
  apply H2. reflexivity.
Defined.

(** ** The script as a whole *)




